(** * Arbor calendar generator: lesson parsing and calendar building

    A shallow embedding of [generate_school_calendar.py]: the link
    extractor [get_calendar_html], the lesson parser
    [extract_lesson_details], the calendar builder [create_calendar] with
    [create_calendar_event], and the publisher [upload_ical_to_s3].

    Text is a list of characters.  A character is a code point below 256;
    on that range the character classes used below (white space, decimal
    digits, letters compared without case) are exactly those of Python's
    [str] methods and of the [re] module. *)

From Stdlib Require Import Ascii String Bool Arith ZArith Lia List.
Import ListNotations.

Set Implicit Arguments.

Definition str := list ascii.

Definition py (s : string) : str := list_ascii_of_string s.
Arguments py s%_string.

Fixpoint str_eqb (a b : str) : bool :=
  match a, b with
  | [], [] => true
  | x :: a', y :: b' => Ascii.eqb x y && str_eqb a' b'
  | _, _ => false
  end.

(** ** Exceptions

    The functions of the program fail by raising; [result] keeps the class
    of the exception that reaches the caller. *)

Inductive exn : Set :=
| IndexError
| KeyError
| TypeError
| AttributeError
| ValueError.

Inductive result (A : Type) : Type :=
| Ok (a : A)
| Raise (e : exn).
Arguments Ok {A} a.
Arguments Raise {A} e.

Definition bind {A B} (m : result A) (k : A -> result B) : result B :=
  match m with
  | Ok a => k a
  | Raise e => Raise e
  end.

Notation "x <- m ;; k" := (bind m (fun x => k))
  (at level 61, m at next level, right associativity).
Notation "' p <- m ;; k" := (bind m (fun x => match x with p => k end))
  (at level 61, p pattern, m at next level, right associativity).

(** ** The built-ins of [str] and [list] that the program calls *)

Module Py.

(** [c.isspace()] *)
Definition isspace (c : ascii) : bool :=
  let n := nat_of_ascii c in
  ((9 <=? n) && (n <=? 13)) || ((28 <=? n) && (n <=? 32))
  || (n =? 133) || (n =? 160).

(** [s.startswith(p)] *)
Fixpoint startswith (p s : str) : bool :=
  match p, s with
  | [], _ => true
  | _ :: _, [] => false
  | a :: p', b :: s' => Ascii.eqb a b && startswith p' s'
  end.

(** [s.partition(sep)] when [sep] occurs in [s]: the text before the first
    occurrence and the text after it. *)
Fixpoint find (sep s : str) : option (str * str) :=
  if startswith sep s then Some ([], skipn (length sep) s)
  else match s with
       | [] => None
       | c :: s' =>
           match find sep s' with
           | Some (before, after) => Some (c :: before, after)
           | None => None
           end
       end.

(** [s.split(sep)] for a separator that is not empty: cut at the
    occurrences of [sep] found from left to right, each search starting
    after the previous occurrence.  The list is never empty.  Every round
    consumes at least one character, so [length s] rounds beyond the first
    are enough. *)
Fixpoint split_rounds (n : nat) (sep s : str) : list str :=
  match find sep s with
  | None => [s]
  | Some (before, after) =>
      match n with
      | O => [before; after]
      | S n' => before :: split_rounds n' sep after
      end
  end.

Definition split (sep s : str) : list str := split_rounds (length s) sep s.

(** [s.split()]: the maximal runs of characters that are not white space. *)
Fixpoint split_ws_from (word : str) (s : str) : list str :=
  match s with
  | [] => match word with [] => [] | _ => [rev word] end
  | c :: s' =>
      if isspace c
      then match word with
           | [] => split_ws_from [] s'
           | _ => rev word :: split_ws_from [] s'
           end
      else split_ws_from (c :: word) s'
  end.

Definition split_ws (s : str) : list str := split_ws_from [] s.

(** [sep.join(l)] *)
Fixpoint join (sep : str) (l : list str) : str :=
  match l with
  | [] => []
  | [x] => x
  | x :: rest => x ++ sep ++ join sep rest
  end.

(** [s.replace(old, new)] for [old] not empty: every occurrence that
    [split] finds is replaced. *)
Definition replace (old new s : str) : str := join new (split old s).

Fixpoint lstrip (s : str) : str :=
  match s with
  | c :: s' => if isspace c then lstrip s' else s
  | [] => []
  end.

(** [s.strip()] *)
Definition strip (s : str) : str := rev (lstrip (rev (lstrip s))).

(** [l[i]] for [i >= 0] *)
Definition item {A} (l : list A) (i : nat) : result A :=
  match nth_error l i with
  | Some a => Ok a
  | None => Raise IndexError
  end.

(** [l[1:]] *)
Definition from1 {A} (l : list A) : list A := tl l.

(** [a, b = l] *)
Definition unpack2 {A} (l : list A) : result (A * A) :=
  match l with
  | [a; b] => Ok (a, b)
  | _ => Raise ValueError
  end.

End Py.

(** ** The parse tree that BeautifulSoup hands to the program

    [bs.BeautifulSoup(html, 'html.parser')] is the library's parser; the
    embedding starts at the tree it returns.  Tag names are in lower case
    (the parser folds them), [classes] is the white-space separated value
    of the [class] attribute, and only [NavigableString] leaves count as
    text. *)

Module Bs.

#[warnings="-register-all"]
Inductive node : Type :=
| Tag (name : str) (classes : list str) (children : list node)
| NavigableString (s : str)
| Comment (s : str).

(** A [BeautifulSoup] object: the top-level nodes of the fragment. *)
Definition soup := list node.

(** [tag.text] *)
Fixpoint text (n : node) : str :=
  match n with
  | Tag _ _ children => flat_map text children
  | NavigableString s => s
  | Comment _ => []
  end.

(** One compound selector: an optional type selector and an optional class
    selector ([li], [.title]). *)
Record compound : Type := { sel_type : option str; sel_class : option str }.

Definition by_type (t : string) : compound :=
  {| sel_type := Some (py t); sel_class := None |}.
Definition by_class (c : string) : compound :=
  {| sel_type := None; sel_class := Some (py c) |}.

(** A selector: compounds joined by the child combinator [>], the subject
    of the selector last. *)
Definition selector := list compound.

Definition element := (str * list str)%type.

Definition matches_compound (c : compound) (e : element) : bool :=
  match sel_type c with
  | Some t => str_eqb t (fst e)
  | None => true
  end
  &&
  match sel_class c with
  | Some k => existsb (str_eqb k) (snd e)
  | None => true
  end.

(** [chain] is an element followed by its ancestors, nearest first;
    [rsel] is the selector read from its subject backwards. *)
Fixpoint matches_chain (rsel : list compound) (chain : list element) : bool :=
  match rsel, chain with
  | [], _ => true
  | _ :: _, [] => false
  | c :: rsel', e :: chain' => matches_compound c e && matches_chain rsel' chain'
  end.

(** The elements of the subtree [n] that match, in document order. *)
Fixpoint select_from (sel : selector) (ancestors : list element) (n : node)
  : list node :=
  match n with
  | Tag name classes children =>
      (if matches_chain (rev sel) ((name, classes) :: ancestors)
       then [n] else [])
      ++ flat_map (select_from sel ((name, classes) :: ancestors)) children
  | _ => []
  end.

(** [soup.select(sel)] *)
Definition select (sel : selector) (doc : soup) : list node :=
  flat_map (select_from sel []) doc.

(** [soup.select_one(sel)] *)
Definition select_one (sel : selector) (doc : soup) : option node :=
  hd_error (select sel doc).

(** [tag.select_one(sel)]: the first match among the descendants of [tag].
    The tree does not record what is above [tag]; a selector without a
    combinator, the only kind the program uses here, does not look there. *)
Definition tag_select_one (sel : selector) (tag : node) : option node :=
  match tag with
  | Tag name classes children =>
      hd_error (flat_map (select_from sel [(name, classes)]) children)
  | _ => None
  end.

(** [x.text] where [x] may be [None] *)
Definition text_of (x : option node) : result str :=
  match x with
  | Some n => Ok (text n)
  | None => Raise AttributeError
  end.

End Bs.

(** ** [datetime.datetime.strptime(s, '%d %b %Y %H:%M')] *)

(** A naive [datetime]; seconds and microseconds are 0 for this format. *)
Record datetime : Set :=
  { year : nat; month : nat; day : nat; hour : nat; minute : nat }.

Module Strptime.

(** [_strptime] turns the format into one regular expression, compiled
    with [IGNORECASE], and takes the first match that the backtracking
    matcher finds at the start of the text.  A parser returns every way to
    match a prefix, in the order in which the matcher tries them. *)
Definition parser (A : Type) := str -> list (A * str).

Definition ret {A} (a : A) : parser A := fun s => [(a, s)].

Definition seq {A B} (p : parser A) (k : A -> parser B) : parser B :=
  fun s => flat_map (fun '(a, rest) => k a rest) (p s).

Notation "x <~ p ;; k" := (seq p (fun x => k))
  (at level 61, p at next level, right associativity).

(** [r1|r2] *)
Definition alt {A} (p q : parser A) : parser A := fun s => p s ++ q s.

Fixpoint alts {A} (ps : list (parser A)) : parser A :=
  match ps with
  | [] => fun _ => []
  | p :: ps' => alt p (alts ps')
  end.

Definition sat (f : ascii -> bool) : parser ascii :=
  fun s => match s with
           | c :: rest => if f c then [(c, rest)] else []
           | [] => []
           end.

Definition between (lo hi : ascii) (c : ascii) : bool :=
  (nat_of_ascii lo <=? nat_of_ascii c) && (nat_of_ascii c <=? nat_of_ascii hi).

(** [\d] *)
Definition digit : parser ascii := sat (between "0" "9").

Definition lower (c : ascii) : ascii :=
  if between "A" "Z" c then ascii_of_nat (nat_of_ascii c + 32) else c.

(** A literal character under [IGNORECASE]. *)
Definition chr (c : ascii) : parser ascii :=
  sat (fun x => Ascii.eqb (lower x) (lower c)).

(** A literal word under [IGNORECASE]; the text matched is returned. *)
Fixpoint word (w : str) : parser str :=
  match w with
  | [] => ret []
  | c :: w' => x <~ chr c ;; xs <~ word w' ;; ret (x :: xs)
  end.

(** The texts left after [\s*], longest match first. *)
Fixpoint spaces0 (s : str) : list (unit * str) :=
  match s with
  | c :: rest => if Py.isspace c then spaces0 rest ++ [(tt, s)] else [(tt, s)]
  | [] => [(tt, [])]
  end.

(** [\s+], which stands for each run of white space of the format. *)
Definition spaces : parser unit :=
  fun s => match s with
           | c :: rest => if Py.isspace c then spaces0 rest else []
           | [] => []
           end.

Definition two (p q : parser ascii) : parser str :=
  a <~ p ;; b <~ q ;; ret [a; b].
Definition one (p : parser ascii) : parser str :=
  a <~ p ;; ret [a].

(** [%d]: [3[0-1]|[1-2]\d|0[1-9]|[1-9]| [1-9]] *)
Definition group_d : parser str :=
  alts [ two (chr "3") (sat (between "0" "1"));
         two (sat (between "1" "2")) digit;
         two (chr "0") (sat (between "1" "9"));
         one (sat (between "1" "9"));
         two (chr " ") (sat (between "1" "9")) ].

(** The abbreviated month names of the C locale, [a_month[1:]]. *)
Definition a_month : list str :=
  map py ["jan"; "feb"; "mar"; "apr"; "may"; "jun";
          "jul"; "aug"; "sep"; "oct"; "nov"; "dec"]%string.

(** [%b]: [jan|feb|...|dec] *)
Definition group_b : parser str := alts (map word a_month).

(** [%Y]: [\d\d\d\d] *)
Definition group_Y : parser str :=
  a <~ digit ;; b <~ digit ;; c <~ digit ;; d <~ digit ;; ret [a; b; c; d].

(** [%H]: [2[0-3]|[0-1]\d|\d] *)
Definition group_H : parser str :=
  alts [ two (chr "2") (sat (between "0" "3"));
         two (sat (between "0" "1")) digit;
         one digit ].

(** [%M]: [[0-5]\d|\d] *)
Definition group_M : parser str :=
  alts [ two (sat (between "0" "5")) digit; one digit ].

Record groups : Type :=
  { g_d : str; g_b : str; g_Y : str; g_H : str; g_M : str }.

(** The expression for ['%d %b %Y %H:%M']. *)
Definition format_regex : parser groups :=
  d <~ group_d ;; _ <~ spaces ;;
  b <~ group_b ;; _ <~ spaces ;;
  Y <~ group_Y ;; _ <~ spaces ;;
  H <~ group_H ;; _ <~ chr ":" ;;
  M <~ group_M ;;
  ret {| g_d := d; g_b := b; g_Y := Y; g_H := H; g_M := M |}.

(** [int(s)] for decimal digits with white space around them, which is all
    a group can hold. *)
Definition int (s : str) : nat :=
  fold_left (fun n c => 10 * n + (nat_of_ascii c - 48)) (Py.strip s) 0.

(** [a_month.index(name)], counting from 1 as [a_month[0]] is empty. *)
Fixpoint index_from (i : nat) (name : str) (l : list str) : nat :=
  match l with
  | [] => 0
  | x :: l' => if str_eqb x name then i else index_from (S i) name l'
  end.

Definition is_leap (y : nat) : bool :=
  ((y mod 4 =? 0) && negb (y mod 100 =? 0)) || (y mod 400 =? 0).

Definition days_in_month (y m : nat) : nat :=
  match m with
  | 2 => if is_leap y then 29 else 28
  | 4 | 6 | 9 | 11 => 30
  | _ => 31
  end.

(** No match, text left over after the match, and a date that does not
    exist all raise [ValueError]. *)
Definition strptime (s : str) : result datetime :=
  match format_regex s with
  | [] => Raise ValueError
  | (g, rest) :: _ =>
      match rest with
      | _ :: _ => Raise ValueError
      | [] =>
          let y := int (g_Y g) in
          let m := index_from 1 (map lower (g_b g)) a_month in
          let d := int (g_d g) in
          if (1 <=? y) && (d <=? days_in_month y m)
          then Ok {| year := y; month := m; day := d;
                     hour := int (g_H g); minute := int (g_M g) |}
          else Raise ValueError
      end
  end.

End Strptime.

(** ** The lesson parser *)

(** The dictionary that [extract_lesson_details] returns; [None] for
    ['class_location'] is a lesson without location. *)
Record lesson : Type :=
  { subject : str;
    class_location : option str;
    staff : str;
    from_date : datetime;
    to_date : datetime }.

Definition LF : ascii := ascii_of_nat 10.

(** ['.header > .title'] *)
Definition title_selector : Bs.selector :=
  [Bs.by_class "header"; Bs.by_class "title"].

(** ['.content > ul > li'] *)
Definition items_selector : Bs.selector :=
  [Bs.by_class "content"; Bs.by_type "ul"; Bs.by_type "li"].

(** ['span'] *)
Definition span_selector : Bs.selector := [Bs.by_type "span"].

(** [lesson_details[i].select_one('span').text] *)
Definition item_text (lesson_details : list Bs.node) (i : nat) : result str :=
  li <- Py.item lesson_details i ;;
  Bs.text_of (Bs.tag_select_one span_selector li).

(** Lines 105 to 111: location and staff. *)
Definition location_and_staff (lesson_details : list Bs.node)
  : result (option str * str) :=
  if length lesson_details <? 3 then
    staff <- item_text lesson_details 1 ;;
    Ok (None, staff)
  else
    t <- item_text lesson_details 1 ;;
    field <- Py.item (Py.split (py ":") t) 1 ;;
    let class_location := Py.strip field in
    staff <- item_text lesson_details 2 ;;
    Ok (Some class_location, staff).

(** Lines 113 to 119, from the text of the first item with its line feeds
    removed. *)
Definition parse_dates (source_date : str) : result (datetime * datetime) :=
  let parsed_date := Py.join (py " ") (Py.split_ws source_date) in
  '(date_str, time_str) <-
     Py.unpack2 (Py.from1 (Py.split (py ", ") parsed_date)) ;;
  '(from_time, to_time) <- Py.unpack2 (Py.split (py " - ") time_str) ;;
  from_date <- Strptime.strptime (date_str ++ py " " ++ from_time) ;;
  to_date <- Strptime.strptime (date_str ++ py " " ++ to_time) ;;
  Ok (from_date, to_date).

(** Line 103. *)
Definition extract_subject (parser : Bs.soup) : result str :=
  title <- Bs.text_of (Bs.select_one title_selector parser) ;;
  Py.item (Py.split (py ": Year") title) 0.

(** Line 104. *)
Definition lesson_details (parser : Bs.soup) : list Bs.node :=
  Bs.select items_selector parser.

Definition extract_lesson_details (parser : Bs.soup) : result lesson :=
  subject <- extract_subject parser ;;
  let lesson_details := lesson_details parser in
  '(class_location, staff) <- location_and_staff lesson_details ;;
  t <- item_text lesson_details 0 ;;
  let source_date := Py.replace [LF] [] t in
  '(from_date, to_date) <- parse_dates source_date ;;
  Ok {| subject := subject;
        class_location := class_location;
        staff := staff;
        from_date := from_date;
        to_date := to_date |}.

(** A fragment of the expected shape, for the examples: a title and detail
    items that each hold one [span] after a label. *)
Definition detail_item (text : str) : Bs.node :=
  Bs.Tag (py "li") []
    [Bs.Tag (py "label") [] [Bs.NavigableString (py "Detail")];
     Bs.Tag (py "span") [] [Bs.NavigableString text]].

Definition fragment (title : str) (items : list str) : Bs.soup :=
  [Bs.Tag (py "div") [py "header"]
     [Bs.Tag (py "div") [py "title"] [Bs.NavigableString title]];
   Bs.Tag (py "div") [py "content"]
     [Bs.Tag (py "ul") [] (map detail_item items)]].

(** ** The link extractor *)

(** What [response.json()] returns: the Python values of a JSON document.
    A [dict] keeps its items in insertion order, each key once; a number
    is kept as its literal, the program never looks inside one. *)
#[warnings="-register-all"]
Inductive json : Type :=
| JNone
| JBool (b : bool)
| JNumber (literal : str)
| JStr (s : str)
| JList (elements : list json)
| JDict (members : list (str * json)).

Module Json.

Fixpoint lookup (key : str) (members : list (str * json)) : option json :=
  match members with
  | [] => None
  | (k, v) :: rest => if str_eqb k key then Some v else lookup key rest
  end.

(** [v[key]] for a [str] key *)
Definition getitem (v : json) (key : str) : result json :=
  match v with
  | JDict members =>
      match lookup key members with
      | Some x => Ok x
      | None => Raise KeyError
      end
  | _ => Raise TypeError
  end.

(** [v[0]]; a dictionary from JSON has no integer key. *)
Definition getitem0 (v : json) : result json :=
  match v with
  | JList elements => Py.item elements 0
  | JStr s => c <- Py.item s 0 ;; Ok (JStr [c])
  | JDict _ => Raise KeyError
  | _ => Raise TypeError
  end.

(** [for h in v]: what the loop visits. *)
Definition iter (v : json) : result (list json) :=
  match v with
  | JList elements => Ok elements
  | JDict members => Ok (map (fun m => JStr (fst m)) members)
  | JStr s => Ok (map (fun c => JStr [c]) s)
  | _ => Raise TypeError
  end.

Definition is_str (key : str) (v : json) : bool :=
  match v with
  | JStr s => str_eqb s key
  | _ => false
  end.

(** [key in v] for a [str] key *)
Definition contains (key : str) (v : json) : result bool :=
  match v with
  | JDict members =>
      Ok (match lookup key members with Some _ => true | None => false end)
  | JList elements => Ok (existsb (is_str key) elements)
  | JStr s =>
      Ok (match Py.find key s with Some _ => true | None => false end)
  | _ => Raise TypeError
  end.

(** [v.split(sep)]: only a [str] has the method. *)
Definition split (v : json) (sep : str) : result (list str) :=
  match v with
  | JStr s => Ok (Py.split sep s)
  | _ => Raise AttributeError
  end.

End Json.

(** A [for] loop whose body updates the value [acc] and may raise. *)
Fixpoint for_each {A S} (l : list A) (body : S -> A -> result S) (acc : S)
  : result S :=
  match l with
  | [] => Ok acc
  | a :: rest => acc' <- body acc a ;; for_each rest body acc'
  end.

Definition quote_char : ascii := ascii_of_nat 34.

(** The double quote, as a text of one character. *)
Definition quote : str := [quote_char].

(** The marker: [ajax-link=] and the double quote that opens its value. *)
Definition marker : str := py "ajax-link=" ++ quote.

(** [entries['items'][0]['fields']['response']['value']['pages']] *)
Definition pages_of (entries : json) : result json :=
  v <- Json.getitem entries (py "items") ;;
  v <- Json.getitem0 v ;;
  v <- Json.getitem v (py "fields") ;;
  v <- Json.getitem v (py "response") ;;
  v <- Json.getitem v (py "value") ;;
  Json.getitem v (py "pages").

(** The body of the outer loop, lines 84 to 86. *)
Definition links_of_page (ajax_link_list : list str) (h : json)
  : result (list str) :=
  present <- Json.contains (py "html") h ;;
  if (present : bool) then
    html <- Json.getitem h (py "html") ;;
    pieces <- Json.split html marker ;;
    for_each (Py.from1 pieces)
      (fun acc link =>
         first <- Py.item (Py.split quote link) 0 ;;
         Ok (acc ++ [first]))
      ajax_link_list
  else Ok ajax_link_list.

Definition get_calendar_html (entries : json) : result (list str) :=
  pages <- pages_of entries ;;
  hs <- Json.iter pages ;;
  for_each hs links_of_page [].

(** A response document with the given page fragments. *)
Definition response_with (pages : list json) : json :=
  JDict [(py "items",
          JList [JDict [(py "fields",
            JDict [(py "response",
              JDict [(py "value",
                JDict [(py "pages", JList pages)])])])]])].

(** A page fragment with an [html] field. *)
Definition html_page (html : str) : json := JDict [(py "html", JStr html)].

(** ** The calendar builder *)

(** An aware [datetime]: the wall-clock reading in its zone and the offset
    of that zone from UTC, in minutes. *)
Record aware_datetime : Set := { wall : datetime; utcoffset : Z }.

Module Ical.

(** The property values the program stores: [vText(x)] is the text
    [str(x)], and [vDDDTypes(dt)] wraps a [datetime]. *)
Inductive value : Type :=
| vText (s : str)
| vDDDTypes (dt : aware_datetime).

(** What a component holds under one property name: the value, or the list
    of values once the name was added again. *)
Inductive property : Type :=
| One (v : value)
| Many (vs : list value).

(** A component is a dictionary from names in upper case to properties,
    in insertion order, with a list of subcomponents. *)
#[warnings="-register-all"]
Inductive component : Type :=
| Component (name : str) (properties : list (str * property))
    (subcomponents : list component).

Definition name_of (c : component) : str :=
  let 'Component n _ _ := c in n.
Definition properties (c : component) : list (str * property) :=
  let 'Component _ ps _ := c in ps.
Definition subcomponents (c : component) : list component :=
  let 'Component _ _ subs := c in subs.

Definition upper (c : ascii) : ascii :=
  if Strptime.between "a" "z" c then ascii_of_nat (nat_of_ascii c - 32) else c.

Fixpoint lookup (key : str) (ps : list (str * property)) : option property :=
  match ps with
  | [] => None
  | (k, p) :: rest => if str_eqb k key then Some p else lookup key rest
  end.

(** [d[key] = p]: in place when the key is there, at the end otherwise. *)
Fixpoint set (key : str) (p : property) (ps : list (str * property))
  : list (str * property) :=
  match ps with
  | [] => [(key, p)]
  | (k, old) :: rest =>
      if str_eqb k key then (k, p) :: rest else (k, old) :: set key p rest
  end.

(** [c[name]], [None] when the component has no such property *)
Definition get (c : component) (name : str) : option property :=
  lookup (map upper name) (properties c).

(** [c.add(name, v)] with [v] already encoded. *)
Definition add_value (c : component) (name : str) (v : value) : component :=
  let key := map upper name in
  let p := match lookup key (properties c) with
           | None => One v
           | Some (One old) => Many [old; v]
           | Some (Many olds) => Many (olds ++ [v])
           end in
  Component (name_of c) (set key p (properties c)) (subcomponents c).

(** [vText(x)] for [x] a [str] or [None]: [to_unicode] leaves [None] as it
    is and [str.__new__] then makes the text of it. *)
Definition text_value (x : option str) : value :=
  match x with
  | Some s => vText s
  | None => vText (py "None")
  end.

(** [c.add(name, x)] for a property of type text *)
Definition add_text (c : component) (name : string) (x : option str)
  : component :=
  add_value c (py name) (text_value x).

(** [c.add(name, dt)] for [dtstart] and [dtend] *)
Definition add_datetime (c : component) (name : string) (dt : aware_datetime)
  : component :=
  add_value c (py name) (vDDDTypes dt).

(** [c.add_component(sub)] *)
Definition add_component (c sub : component) : component :=
  Component (name_of c) (properties c) (subcomponents c ++ [sub]).

(** [icalendar.Event()] and [icalendar.Calendar()] *)
Definition Event : component := Component (py "VEVENT") [] [].
Definition Calendar : component := Component (py "VCALENDAR") [] [].

End Ical.

Definition CALENDAR_PROD_ID : str :=
  py "-//Tiffin School//Tiffin School Calendar//EN".

Section Calendar.

(** [dt.astimezone(tz)] for a naive [dt] and [tz = tzstr(TIMEZONE)]: the
    reading of [dt] in the zone of the host, moved to [tz].  It depends on
    the host, so it is a parameter here. *)
Variable astimezone : datetime -> aware_datetime.

Definition create_calendar_event (l : lesson) : Ical.component :=
  let e := Ical.Event in
  let e := Ical.add_text e "summary" (Some (subject l)) in
  let e := Ical.add_text e "location" (class_location l) in
  let e := Ical.add_text e "description" (Some (staff l)) in
  let e := Ical.add_datetime e "dtstart" (astimezone (from_date l)) in
  let e := Ical.add_datetime e "dtend" (astimezone (to_date l)) in
  e.

(** The calendar before the loop. *)
Definition new_calendar : Ical.component :=
  let cal := Ical.Calendar in
  let cal := Ical.add_text cal "prodid" (Some CALENDAR_PROD_ID) in
  let cal := Ical.add_text cal "version" (Some (py "2.0")) in
  cal.

Definition create_calendar (lesson_list : list lesson) : Ical.component :=
  fold_left
    (fun cal l => Ical.add_component cal (create_calendar_event l))
    lesson_list new_calendar.

End Calendar.

(** ** The publisher *)

Module S3.

(** What a call can raise: an instance of [Exception], with the text
    [str(e)]; something under [BaseException] only, such as
    [KeyboardInterrupt]; and the [UnboundLocalError] of reading a local
    name that was never bound, itself an [Exception]. *)
Inductive pyexc : Type :=
| Error (msg : str)
| Interrupt (msg : str)
| UnboundLocalError.

Definition is_Exception (e : pyexc) : bool :=
  match e with
  | Interrupt _ => false
  | _ => true
  end.

Definition message (e : pyexc) : str :=
  match e with
  | Error msg => msg
  | Interrupt msg => msg
  | UnboundLocalError =>
      py "cannot access local variable 'temp_file' where it is not associated with a value"
  end.

Inductive outcome (A : Type) : Type :=
| Returns (a : A)
| Raises (e : pyexc).
Arguments Returns {A} a.
Arguments Raises {A} e.

(** How the calls into the libraries and the host end in one run. *)
Record environment : Type :=
  { boto3_client : outcome unit;
    TemporaryFile : outcome unit;
    to_ical : Ical.component -> outcome str;
    write : str -> outcome unit;
    seek : outcome unit;
    upload_fileobj : str -> outcome unit;
    print : str -> outcome unit;
    close : outcome unit }.

(** What a run leaves behind. *)
Inductive effect : Type :=
| Printed (text : str)
| Uploaded (bucket key body : str)
| Closed.

Definition BUCKET_NAME : str := py "feed.tobiasmasonvanes.com".
Definition FILENAME : str := py "tiffin-calendar.ics".

(** Lines 155 to 157, once [temp_file] is bound. *)
Definition serialize_and_upload (env : environment) (cal : Ical.component)
  : list effect * outcome unit :=
  match to_ical env cal with
  | Raises e => ([], Raises e)
  | Returns body =>
      match write env body with
      | Raises e => ([], Raises e)
      | Returns _ =>
          match seek env with
          | Raises e => ([], Raises e)
          | Returns _ =>
              match upload_fileobj env body with
              | Raises e => ([], Raises e)
              | Returns _ => ([Uploaded BUCKET_NAME FILENAME body], Returns tt)
              end
          end
      end
  end.

(** The [try] block; the flag tells whether [temp_file] got bound. *)
Definition try_block (env : environment) (cal : Ical.component)
  : bool * (list effect * outcome unit) :=
  match TemporaryFile env with
  | Raises e => (false, ([], Raises e))
  | Returns _ => (true, serialize_and_upload env cal)
  end.

(** [except Exception as e: print(...)] *)
Definition except_clause (env : environment) (r : list effect * outcome unit)
  : list effect * outcome unit :=
  match r with
  | (effects, Returns _) => (effects, Returns tt)
  | (effects, Raises e) =>
      if is_Exception e then
        let text := py "Failed to upload file to S3: " ++ message e in
        match print env text with
        | Returns _ => (effects ++ [Printed text], Returns tt)
        | Raises e' => (effects, Raises e')
        end
      else (effects, Raises e)
  end.

(** [finally: temp_file.close()], then what was pending goes on. *)
Definition finally_clause (env : environment) (bound : bool)
  (r : list effect * outcome unit) : list effect * outcome unit :=
  if bound then
    match close env with
    | Returns _ => (fst r ++ [Closed], snd r)
    | Raises e => (fst r, Raises e)
    end
  else (fst r, Raises UnboundLocalError).

Definition upload_ical_to_s3 (env : environment) (ical_calendar : Ical.component)
  : list effect * outcome unit :=
  match boto3_client env with
  | Raises e => ([], Raises e)
  | Returns _ =>
      let '(bound, r) := try_block env ical_calendar in
      finally_clause env bound (except_clause env r)
  end.

End S3.

(** ** Words of the specification, as definitions of their own *)

(** [sep in s] *)
Definition contains (sep s : str) : bool :=
  match Py.find sep s with
  | Some _ => true
  | None => false
  end.

(** The text after the first occurrence of the character [c]. *)
Fixpoint after_first (c : ascii) (s : str) : str :=
  match s with
  | [] => []
  | x :: s' => if Ascii.eqb x c then s' else after_first c s'
  end.

(** The text before the first occurrence of [c], all of it when there is
    none. *)
Fixpoint before_first (c : ascii) (s : str) : str :=
  match s with
  | [] => []
  | x :: s' => if Ascii.eqb x c then [] else x :: before_first c s'
  end.

(** [s] with every occurrence of the character [c] deleted. *)
Definition without (c : ascii) (s : str) : str :=
  filter (fun x => negb (Ascii.eqb x c)) s.

(** [tagged html links]: [html] is text without the marker, then for each
    link in turn the marker, the value of the link, the double quote that
    closes it, and text without the marker.  A value holds no double quote
    and does not itself end in the marker's name and equals sign. *)
Inductive tagged : str -> list str -> Prop :=
| tagged_end x :
    contains marker x = false -> tagged x []
| tagged_link x v rest links :
    contains marker x = false ->
    existsb (Ascii.eqb quote_char) v = false ->
    contains marker (v ++ quote) = false ->
    tagged rest links ->
    tagged (x ++ marker ++ v ++ quote ++ rest) (v :: links).

(** The links of one page fragment: those of its [html] field, none when
    it has no such field. *)
Inductive page_links : json -> list str -> Prop :=
| page_with_html members html links :
    Json.lookup (py "html") members = Some (JStr html) ->
    tagged html links ->
    page_links (JDict members) links
| page_without_html members :
    Json.lookup (py "html") members = None ->
    page_links (JDict members) [].

(** The words of the claim for the links of a text: at every place where
    the marker occurs, the value that follows it, up to the double quote
    that closes it. *)
Fixpoint quoted_values (html : str) : list str :=
  match html with
  | [] => []
  | _ :: rest =>
      if Py.startswith marker html
      then before_first quote_char (skipn (length marker) html)
             :: quoted_values rest
      else quoted_values rest
  end.

(** ** Inputs of the examples *)

(** A value that is not closed before the next marker. *)
Definition unclosed_value : str :=
  marker ++ py "foo " ++ marker ++ py "bar" ++ quote.

(** The fragment [Room: A:12] of the second item has two colons. *)
Definition two_colons : Bs.soup :=
  fragment (py "Maths: Year 9")
    [py "Thu, 05 Sep 2024, 09:00 - 10:00"; py "Room: A:12"; py "J. Smith"].

Definition scenario_3_fragment : Bs.soup :=
  fragment (py "Maths: Year 9")
    [py "Thu, 05 Sep 2024, 09:00 - 10:00"; py "P. Jones"].

Definition scenario_3_record : lesson :=
  {| subject := py "Maths";
     class_location := None;
     staff := py "P. Jones";
     from_date := {| year := 2024; month := 9; day := 5; hour := 9; minute := 0 |};
     to_date := {| year := 2024; month := 9; day := 5; hour := 10; minute := 0 |} |}.

Definition one_item : Bs.soup :=
  fragment (py "Maths: Year 9") [py "Thu, 05 Sep 2024, 09:00 - 10:00"].

Definition assembly : Bs.soup :=
  fragment (py "Assembly")
    [py "Thu, 05 Sep 2024, 09:00 - 10:00"; py "Location: Hall"; py "J. Smith"].

(** The text of scenario 1. *)
Definition scenario_1_text : str := py "Thu, 05 Sep 2024, 09:00 - 10:00".

Definition nine : datetime :=
  {| year := 2024; month := 9; day := 5; hour := 9; minute := 0 |}.
Definition ten : datetime :=
  {| year := 2024; month := 9; day := 5; hour := 10; minute := 0 |}.

(** The same words with a lone line feed between [Thu,] and [05]. *)
Definition lone_line_feed : Bs.soup :=
  fragment (py "Maths: Year 9")
    [py "Thu," ++ [LF] ++ py "05 Sep 2024, 09:00 - 10:00";
     py "Room: A12"; py "J. Smith"].

(** A first item as a page would hold it: a line feed and indentation
    after the date, tabs and doubled spaces elsewhere. *)
Definition ragged : Bs.soup :=
  fragment (py "Maths: Year 9")
    [[LF] ++ py "   Thu,  05 Sep 2024," ++ [LF] ++ py "      09:00" ++ [ascii_of_nat 9]
       ++ py "-  10:00 " ++ [LF];
     py "Room: A12"; py "J. Smith"].

(** Two fragments with an [html] field around one without; [/a] comes
    twice. *)
Definition three_fragments : list json :=
  [html_page (py "<a " ++ marker ++ py "/a" ++ quote ++ py "></a> <a "
              ++ marker ++ py "/b" ++ quote ++ py ">x</a>");
   JDict [(py "style", JStr (py "wide"))];
   html_page (py "<a " ++ marker ++ py "/a" ++ quote ++ py ">")].

Definition three_pages : json := response_with three_fragments.

(** ** Words for the further properties *)

(** What every link returned has: no double quote, no marker. *)
Definition link_shape (link : str) : Prop :=
  existsb (Ascii.eqb quote_char) link = false /\
  contains marker link = false.

(** The first character, if there is one, is not white space. *)
Definition head_not_space (s : str) : bool :=
  match s with
  | [] => true
  | c :: _ => negb (Py.isspace c)
  end.

(** Every character. *)
Definition all_ascii : list ascii := map ascii_of_nat (seq 0 256).

Definition in_range (lo hi n : nat) : bool := (lo <=? n) && (n <=? hi).

(** A date of the calendar with a time of the day, in the years that
    [datetime] has. *)
Definition MAXYEAR : nat := 9 * 1111.

Definition valid_datetime (dt : datetime) : Prop :=
  1 <= year dt /\ year dt <= MAXYEAR /\
  1 <= month dt /\ month dt <= 12 /\
  1 <= day dt /\ day dt <= Strptime.days_in_month (year dt) (month dt) /\
  hour dt <= 23 /\ minute dt <= 59.

(** The fragment [two_colons] with a fourth detail item. *)
Definition four_items : Bs.soup :=
  fragment (py "Maths: Year 9")
    [py "Thu, 05 Sep 2024, 09:00 - 10:00"; py "Room: A:12"; py "J. Smith";
     py "Period 1"].

(** The shape of an event of the calendar. *)
Definition event_shape (e : Ical.component) : Prop :=
  Ical.name_of e = py "VEVENT" /\
  map fst (Ical.properties e)
    = [py "SUMMARY"; py "LOCATION"; py "DESCRIPTION"; py "DTSTART"; py "DTEND"] /\
  Forall (fun p => exists v, snd p = Ical.One v) (Ical.properties e) /\
  Ical.subcomponents e = [].

(** Two locations that the calendar cannot tell apart. *)
Definition same_location (a b : option str) : Prop :=
  match a, b with
  | None, None => True
  | Some x, Some y => x = y
  | None, Some y => y = py "None"
  | Some x, None => x = py "None"
  end.

(** A run interrupted while the upload is under way. *)
Definition upload_interrupted : S3.environment :=
  {| S3.boto3_client := S3.Returns tt;
     S3.TemporaryFile := S3.Returns tt;
     S3.to_ical := fun _ => S3.Returns (py "BEGIN:VCALENDAR");
     S3.write := fun _ => S3.Returns tt;
     S3.seek := S3.Returns tt;
     S3.upload_fileobj :=
       fun _ => S3.Raises (S3.Interrupt (py "KeyboardInterrupt"));
     S3.print := fun _ => S3.Returns tt;
     S3.close := S3.Returns tt |}.

(** A host without a directory for temporary files. *)
Definition no_temporary_file : S3.environment :=
  {| S3.boto3_client := S3.Returns tt;
     S3.TemporaryFile :=
       S3.Raises (S3.Error (py "No usable temporary directory found"));
     S3.to_ical := fun _ => S3.Returns (py "BEGIN:VCALENDAR");
     S3.write := fun _ => S3.Returns tt;
     S3.seek := S3.Returns tt;
     S3.upload_fileobj := fun _ => S3.Returns tt;
     S3.print := fun _ => S3.Returns tt;
     S3.close := S3.Returns tt |}.

(** Case analysis on how the call of [print] ends. *)
Ltac split_print :=
  match goal with
  | |- context [S3.print ?env ?t] => destruct (S3.print env t) as [[]|]
  end.

(** ** The dates of the command line *)

(** A [datetime.date]. *)
Record date : Set := { date_year : nat; date_month : nat; date_day : nat }.

(** [dt.date()] *)
Definition date_of (dt : datetime) : date :=
  {| date_year := year dt; date_month := month dt; date_day := day dt |}.

(** [datetime.datetime.strptime(s, '%Y-%m-%d')] *)
Module StrptimeDate.

Import Strptime.

(** [%m]: [1[0-2]|0[1-9]|[1-9]] *)
Definition group_m : parser str :=
  alts [ two (chr "1") (sat (between "0" "2"));
         two (chr "0") (sat (between "1" "9"));
         one (sat (between "1" "9")) ].

(** [-%m-%d], the part of the expression after the year. *)
Definition month_day : parser (str * str) :=
  _ <~ chr "-" ;; m <~ group_m ;; _ <~ chr "-" ;; d <~ group_d ;;
  ret (m, d).

(** The expression for ['%Y-%m-%d']. *)
Definition format_regex : parser (str * (str * str)) :=
  Y <~ group_Y ;; md <~ month_day ;; ret (Y, md).

(** The time of the day is midnight. *)
Definition strptime (s : str) : result datetime :=
  match format_regex s with
  | [] => Raise ValueError
  | ((Y, (m, d)), rest) :: _ =>
      match rest with
      | _ :: _ => Raise ValueError
      | [] =>
          let y := int Y in
          if (1 <=? y) && (int d <=? days_in_month y (int m))
          then Ok {| year := y; month := int m; day := int d;
                     hour := 0; minute := 0 |}
          else Raise ValueError
      end
  end.

End StrptimeDate.

(** The character of a decimal digit. *)
Definition digit_char (n : nat) : ascii := ascii_of_nat (48 + n).

(** [%m] and [%d] of [strftime]: two digits. *)
Definition two_digits (n : nat) : str :=
  [digit_char (n / 10); digit_char (n mod 10)].

Definition four_digits (n : nat) : str :=
  [digit_char (n / 1000); digit_char (n / 100 mod 10);
   digit_char (n / 10 mod 10); digit_char (n mod 10)].

(** Reading [-mm-dd] as [strftime] writes it finds the two numbers and
    leaves nothing over. *)
Definition written_month_day (m d : nat) : bool :=
  match StrptimeDate.month_day
          (py "-" ++ two_digits m ++ py "-" ++ two_digits d) with
  | ((ms, ds), []) :: _ =>
      (Strptime.int ms =? m) && (Strptime.int ds =? d)
  | _ => false
  end.

(** ** Requests *)

Module Requests.

Inductive method : Set := GET | POST.

Definition cookie_jar := list (str * str).

(** The arguments of [requests.post] and [requests.get]; [data] is the
    value that the program hands to [json.dumps]. *)
Record request : Type :=
  { verb : method;
    url : str;
    headers : list (str * str);
    cookies : option cookie_jar;
    data : option json;
    timeout : nat }.

(** What the program reads of a response: [status_code], [cookies],
    [text], and the value of [json()], which there is none of when the
    body is not a JSON document. *)
Record response : Type :=
  { status_code : nat;
    response_cookies : cookie_jar;
    text : str;
    json_body : option json }.

(** A request is answered, or the call raises (no connection, time out). *)
Inductive reply : Type :=
| Answer (r : response)
| NoAnswer (why : str).

End Requests.

(** ** The run of the program *)

(** What can end a run before its last line. *)
Inductive failure : Type :=
| HTTPError (status_code : nat)
| RequestException (why : str)
| JSONDecodeError
| Builtin (e : exn)
| Uncaught (e : S3.pyexc).

Inductive ended (A : Type) : Type :=
| Done (a : A)
| Failed (f : failure).
Arguments Done {A} a.
Arguments Failed {A} f.

Definition CALENDAR_BASE_URL : str := py "https://tiffin-school.uk.arbor.sc".
Definition LOGIN_URL : str := CALENDAR_BASE_URL ++ py "/auth/login".
Definition CALENDAR_URL : str :=
  CALENDAR_BASE_URL ++ py "/calendar-entry/list-static/format/json/".

(** [{'Content-Type': 'application/json'}] *)
Definition json_headers : list (str * str) :=
  [(py "Content-Type", py "application/json")].

(** The parsed command line, [args]. *)
Record arguments : Type :=
  { username : str; password : str; start_date : str; end_date : str }.

(** The state of a run: the world that answers the requests, the requests
    made so far, and what the publisher has done so far. *)
Record run (world : Type) : Type :=
  { net : world;
    calls : list Requests.request;
    effects : list S3.effect }.

Section Program.

Variable world : Type.

(** The network: how the world answers a request, and what it is after. *)
Variable send : world -> Requests.request -> world * Requests.reply.

(** [bs.BeautifulSoup(html, 'html.parser')], the parser of the library. *)
Variable html_parser : str -> Bs.soup.

Variable astimezone : datetime -> aware_datetime.

Variable env : S3.environment.

(** [%Y] of [strftime], which the C library of the host writes. *)
Variable year_text : nat -> str.

(** A step of the run. *)
Definition M (A : Type) : Type := run world -> run world * ended A.

Definition done {A} (a : A) : M A := fun st => (st, Done a).

Definition fail {A} (f : failure) : M A := fun st => (st, Failed f).

Definition and_then {A B} (m : M A) (k : A -> M B) : M B :=
  fun st =>
    match m st with
    | (st', Done a) => k a st'
    | (st', Failed f) => (st', Failed f)
    end.

Notation "x <-- m ;; k" := (and_then m (fun x => k))
  (at level 61, m at next level, right associativity).

(** A call of a function that touches nothing outside. *)
Definition lift {A} (r : result A) : M A :=
  match r with
  | Ok a => done a
  | Raise e => fail (Builtin e)
  end.

(** [requests.post(...)] and [requests.get(...)] *)
Definition call (rq : Requests.request) : M Requests.response :=
  fun st =>
    let '(w, rep) := send (net st) rq in
    let st' := {| net := w; calls := calls st ++ [rq];
                  effects := effects st |} in
    match rep with
    | Requests.Answer r => (st', Done r)
    | Requests.NoAnswer why => (st', Failed (RequestException why))
    end.

(** [response.raise_for_status()] *)
Definition raise_for_status (r : Requests.response) : M unit :=
  if (400 <=? Requests.status_code r) && (Requests.status_code r <? 600)
  then fail (HTTPError (Requests.status_code r))
  else done tt.

Definition login_request (username password : str) : Requests.request :=
  {| Requests.verb := Requests.POST;
     Requests.url := LOGIN_URL;
     Requests.headers := json_headers;
     Requests.cookies := None;
     Requests.data :=
       Some (JDict [(py "items",
               JList [JDict [(py "username", JStr username);
                             (py "password", JStr password)]])]);
     Requests.timeout := 10 |}.

Definition authenticate (username password : str) : M Requests.cookie_jar :=
  response <-- call (login_request username password) ;;
  _ <-- raise_for_status response ;;
  done (Requests.response_cookies response).

(** [d.strftime('%Y-%m-%d')] *)
Definition strftime (d : date) : str :=
  year_text (date_year d) ++ py "-" ++ two_digits (date_month d)
  ++ py "-" ++ two_digits (date_day d).

Definition window_request (cookies : Requests.cookie_jar)
  (start_date end_date : date) : Requests.request :=
  {| Requests.verb := Requests.POST;
     Requests.url := CALENDAR_URL;
     Requests.headers := json_headers;
     Requests.cookies := Some cookies;
     Requests.data :=
       Some (JDict [(py "action_params",
               JDict [(py "view", JStr (py "period"));
                      (py "startDate", JStr (strftime start_date));
                      (py "endDate", JStr (strftime end_date));
                      (py "filters",
                       JList [JDict [(py "field_name", JStr (py "object"));
                                     (py "value",
                                      JDict [(py "_objectTypeId", JNumber (py "1"));
                                             (py "_objectId", JNumber (py "7192"))])]])])]);
     Requests.timeout := 30 |}.

Definition get_calendar_entries (cookies : Requests.cookie_jar)
  (start_date end_date : date) : M json :=
  response <-- call (window_request cookies start_date end_date) ;;
  _ <-- raise_for_status response ;;
  match Requests.json_body response with
  | Some v => done v
  | None => fail JSONDecodeError
  end.

Definition detail_request (cookies : Requests.cookie_jar) (tooltip_url : str)
  : Requests.request :=
  {| Requests.verb := Requests.GET;
     Requests.url := CALENDAR_BASE_URL ++ tooltip_url;
     Requests.headers := [];
     Requests.cookies := Some cookies;
     Requests.data := None;
     Requests.timeout := 30 |}.

Definition get_calendar_entry (tooltip_url : str)
  (cookies : Requests.cookie_jar) : M str :=
  response <-- call (detail_request cookies tooltip_url) ;;
  _ <-- raise_for_status response ;;
  done (Requests.text response).

(** Lines 172 to 175: the loop over the links. *)
Fixpoint lessons_of (links : list str) (cookies : Requests.cookie_jar)
  (lesson_list : list lesson) : M (list lesson) :=
  match links with
  | [] => done lesson_list
  | link :: rest =>
      tooltip_response <-- get_calendar_entry link cookies ;;
      lesson_details <--
        lift (extract_lesson_details (html_parser tooltip_response)) ;;
      lessons_of rest cookies (lesson_list ++ [lesson_details])
  end.

(** The call of [upload_ical_to_s3] from [_main]. *)
Definition publish (ical_calendar : Ical.component) : M unit :=
  fun st =>
    let '(done_now, out) := S3.upload_ical_to_s3 env ical_calendar in
    let st' := {| net := net st; calls := calls st;
                  effects := effects st ++ done_now |} in
    match out with
    | S3.Returns _ => (st', Done tt)
    | S3.Raises e => (st', Failed (Uncaught e))
    end.

(** Lines 166 to 176, up to the calendar. *)
Definition build (args : arguments) : M Ical.component :=
  start <-- lift (StrptimeDate.strptime (start_date args)) ;;
  let start_date := date_of start in
  finish <-- lift (StrptimeDate.strptime (end_date args)) ;;
  let end_date := date_of finish in
  cookies <-- authenticate (username args) (password args) ;;
  calendar_entries <-- get_calendar_entries cookies start_date end_date ;;
  links <-- lift (get_calendar_html calendar_entries) ;;
  lesson_list <-- lessons_of links cookies [] ;;
  done (create_calendar astimezone lesson_list).

Definition _main (args : arguments) : M unit :=
  ical_calendar <-- build args ;;
  publish ical_calendar.

End Program.

(** The pages that the portal answers when the detail requests for
    [links] are sent one after the other from the state [w] of the
    network: the text of each answer, in the order of the links, and none
    when a request is not answered. *)
Fixpoint pages_fetched {world}
  (send : world -> Requests.request -> world * Requests.reply)
  (cookies : Requests.cookie_jar) (w : world) (links : list str)
  : option (list str) :=
  match links with
  | [] => Some []
  | link :: rest =>
      match send w (detail_request cookies link) with
      | (w', Requests.Answer r) =>
          match pages_fetched send cookies w' rest with
          | Some pages => Some (Requests.text r :: pages)
          | None => None
          end
      | (_, Requests.NoAnswer _) => None
      end
  end.

(** A step of the run that leaves alone what the publisher has done. *)
Definition quiet {world A} (m : M world A) : Prop :=
  forall st st' r, m st = (st', r) -> effects st' = effects st.

(** ** Inputs of the examples of a run *)

(** A portal that refuses every request. *)
Definition refusing_portal (w : unit) (rq : Requests.request)
  : unit * Requests.reply :=
  (w, Requests.Answer
        {| Requests.status_code := 401;
           Requests.response_cookies := [];
           Requests.text := py "Unauthorized";
           Requests.json_body := None |}).

Definition session : Requests.cookie_jar := [(py "sid", py "k3")].

(** A portal with one lesson in its window; the world counts the
    requests. *)
Definition small_portal (w : nat) (rq : Requests.request)
  : nat * Requests.reply :=
  (S w,
   Requests.Answer
     match Requests.verb rq with
     | Requests.GET =>
         {| Requests.status_code := 200;
            Requests.response_cookies := [];
            Requests.text := py "<div class=header>...</div>";
            Requests.json_body := None |}
     | Requests.POST =>
         if str_eqb (Requests.url rq) LOGIN_URL
         then {| Requests.status_code := 200;
                 Requests.response_cookies := session;
                 Requests.text := [];
                 Requests.json_body := None |}
         else {| Requests.status_code := 200;
                 Requests.response_cookies := [];
                 Requests.text := [];
                 Requests.json_body :=
                   Some (response_with
                           [html_page (marker ++ py "/a" ++ quote)]) |}
     end).

(** A parser of pages that knows one page, that of scenario 3. *)
Definition one_page_parser (html : str) : Bs.soup := scenario_3_fragment.

(** A host on universal time. *)
Definition as_utc (dt : datetime) : aware_datetime :=
  {| wall := dt; utcoffset := 0 |}.

(** The same time of day on the day after. *)
Definition next_day (dt : datetime) : datetime :=
  if day dt <? Strptime.days_in_month (year dt) (month dt) then
    {| year := year dt; month := month dt; day := S (day dt);
       hour := hour dt; minute := minute dt |}
  else if month dt <? 12 then
    {| year := year dt; month := S (month dt); day := 1;
       hour := hour dt; minute := minute dt |}
  else
    {| year := S (year dt); month := 1; day := 1;
       hour := hour dt; minute := minute dt |}.

(** [dt + timedelta(hours=n)], for [n] up to 24. *)
Definition hours_later (n : nat) (dt : datetime) : datetime :=
  if hour dt + n <? 24 then
    {| year := year dt; month := month dt; day := day dt;
       hour := hour dt + n; minute := minute dt |}
  else
    let d := next_day dt in
    {| year := year d; month := month d; day := day d;
       hour := hour dt + n - 24; minute := minute dt |}.

(** A host whose clock is [n] whole hours behind universal time:
    [astimezone] reads a naive [dt] on the clock of the host, which is the
    instant [n] hours later in universal time.  The offset of [tz] itself,
    the same on every host, is left at 0 as in [as_utc]. *)
Definition behind_utc (n : nat) (dt : datetime) : aware_datetime :=
  as_utc (hours_later n dt).

Definition one_pm : datetime :=
  {| year := 2024; month := 9; day := 5; hour := 13; minute := 0 |}.

(** A run in which the publisher meets no failure. *)
Definition upload_accepted : S3.environment :=
  {| S3.boto3_client := S3.Returns tt;
     S3.TemporaryFile := S3.Returns tt;
     S3.to_ical := fun _ => S3.Returns (py "BEGIN:VCALENDAR");
     S3.write := fun _ => S3.Returns tt;
     S3.seek := S3.Returns tt;
     S3.upload_fileobj := fun _ => S3.Returns tt;
     S3.print := fun _ => S3.Returns tt;
     S3.close := S3.Returns tt |}.

Definition one_week : arguments :=
  {| username := py "parent"; password := py "secret";
     start_date := py "2024-09-02"; end_date := py "2024-09-06" |}.

Definition no_date : arguments :=
  {| username := py "parent"; password := py "secret";
     start_date := py "yesterday"; end_date := py "2024-09-06" |}.

(** The state before the first line of [_main]. *)
Definition fresh {world} (w : world) : run world :=
  {| net := w; calls := []; effects := [] |}.

(** A page fragment of the documented shape: a dictionary whose [html]
    field, when it has one, is a text. *)
Definition page_shape (h : json) : Prop :=
  exists members,
    h = JDict members /\
    (Json.lookup (py "html") members = None \/
     exists html, Json.lookup (py "html") members = Some (JStr html)).

(** * Properties *)

Lemma str_eqb_eq a b : str_eqb a b = true <-> a = b.
Proof.
  revert b. induction a as [|x a IH]; intros [|y b]; simpl;
    try (split; [discriminate | congruence]); [tauto|].
  rewrite andb_true_iff, Ascii.eqb_eq, IH. split.
  - now intros [-> ->].
  - intros H. injection H as -> ->. auto.
Qed.

Lemma bind_Ok {A B} (m : result A) (k : A -> result B) b :
  bind m k = Ok b -> exists a, m = Ok a /\ k a = Ok b.
Proof. destruct m; simpl; [eauto | discriminate]. Qed.

(** ** Checks of the built-ins against the interpreter *)

Example split_colon : Py.split (py ":") (py "Room: A:12") = [py "Room"; py " A"; py "12"].
Proof. reflexivity. Qed.
Example split_end : Py.split (py ":") (py "a:") = [py "a"; py ""].
Proof. reflexivity. Qed.
Example split_overlap : Py.split (py "XX") (py "aXXXb") = [py "a"; py "Xb"].
Proof. reflexivity. Qed.
Example split_empty : Py.split (py ":") (py "") = [py ""].
Proof. reflexivity. Qed.
Example split_ws_ex : Py.split_ws (py " a  b ") = [py "a"; py "b"].
Proof. reflexivity. Qed.
Example strip_ex : Py.strip (py "  A 12 ") = py "A 12".
Proof. reflexivity. Qed.
Example replace_ex : Py.replace (py "x") (py "") (py "axbxx") = py "ab".
Proof. reflexivity. Qed.

Example strptime_1 : Strptime.strptime (py "05 Sep 2024 09:00")
  = Ok {| year := 2024; month := 9; day := 5; hour := 9; minute := 0 |}.
Proof. vm_compute. reflexivity. Qed.
Example strptime_2 : Strptime.strptime (py "5 sep 2024 9:0")
  = Ok {| year := 2024; month := 9; day := 5; hour := 9; minute := 0 |}.
Proof. vm_compute. reflexivity. Qed.
Example strptime_3 : Strptime.strptime (py "05 Sep 2024 09:005") = Raise ValueError.
Proof. vm_compute. reflexivity. Qed.
Example strptime_4 : Strptime.strptime (py "31 Feb 2024 09:00") = Raise ValueError.
Proof. vm_compute. reflexivity. Qed.
Example strptime_5 : Strptime.strptime (py " 5 Sep 2024 09:00")
  = Ok {| year := 2024; month := 9; day := 5; hour := 9; minute := 0 |}.
Proof. vm_compute. reflexivity. Qed.
Example strptime_6 : Strptime.strptime (py "05 Sep 0000 09:00") = Raise ValueError.
Proof. vm_compute. reflexivity. Qed.
Example strptime_7 : Strptime.strptime (py "05 Sep 2024 24:00") = Raise ValueError.
Proof. vm_compute. reflexivity. Qed.
Example strptime_8 : Strptime.strptime (py "35 Sep 2024 09:00") = Raise ValueError.
Proof. vm_compute. reflexivity. Qed.
Example strptime_9 : Strptime.strptime (py "05 Sep 2024  09:00 ") = Raise ValueError.
Proof. vm_compute. reflexivity. Qed.
Example strptime_10 : Strptime.strptime (py "29 Feb 2023 10:30") = Raise ValueError.
Proof. vm_compute. reflexivity. Qed.

Example scenario_2 :
  extract_lesson_details
    (fragment (py "Maths: Year 9")
       [py "Thu, 05 Sep 2024, 09:00 - 10:00"; py "Room: A12"; py "J. Smith"])
  = Ok {| subject := py "Maths";
          class_location := Some (py "A12");
          staff := py "J. Smith";
          from_date := {| year := 2024; month := 9; day := 5; hour := 9; minute := 0 |};
          to_date := {| year := 2024; month := 9; day := 5; hour := 10; minute := 0 |} |}.
Proof. vm_compute. reflexivity. Qed.

Example scenario_3 :
  extract_lesson_details
    (fragment (py "Maths: Year 9")
       [py "Thu, 05 Sep 2024, 09:00 - 10:00"; py "P. Jones"])
  = Ok {| subject := py "Maths";
          class_location := None;
          staff := py "P. Jones";
          from_date := {| year := 2024; month := 9; day := 5; hour := 9; minute := 0 |};
          to_date := {| year := 2024; month := 9; day := 5; hour := 10; minute := 0 |} |}.
Proof. vm_compute. reflexivity. Qed.

Example scenario_4 :
  get_calendar_html
    (response_with
       [html_page (py "<a " ++ marker ++ py "/a" ++ quote ++ py "></a> <a "
                   ++ marker ++ py "/b" ++ quote ++ py ">x</a>")])
  = Ok [py "/a"; py "/b"].
Proof. vm_compute. reflexivity. Qed.

(** ** Finding and splitting *)

Lemma startswith_app sep rest : Py.startswith sep (sep ++ rest) = true.
Proof.
  induction sep as [|c sep IH]; simpl; [reflexivity|].
  now rewrite Ascii.eqb_refl.
Qed.

Lemma startswith_inv sep s :
  Py.startswith sep s = true -> exists rest, s = sep ++ rest.
Proof.
  revert s. induction sep as [|c sep IH]; intros s H.
  - now exists s.
  - destruct s as [|x s]; simpl in H; [discriminate|].
    apply andb_true_iff in H as [Hc Hs].
    apply Ascii.eqb_eq in Hc. subst x.
    destruct (IH _ Hs) as [rest ->]. now exists rest.
Qed.

Lemma skipn_app_length (sep rest : str) : skipn (length sep) (sep ++ rest) = rest.
Proof. induction sep; simpl; auto. Qed.

Lemma startswith_skipn sep s :
  Py.startswith sep s = true -> s = sep ++ skipn (length sep) s.
Proof.
  intros H. apply startswith_inv in H as [rest ->].
  now rewrite skipn_app_length.
Qed.

(** What [find] returns is a decomposition of the text. *)
Lemma find_Some sep s before after :
  Py.find sep s = Some (before, after) -> s = before ++ sep ++ after.
Proof.
  revert before. induction s as [|c s IH]; intros before H.
  - simpl in H. destruct (Py.startswith sep []) eqn:E; [|discriminate].
    injection H as <- <-. now apply startswith_skipn.
  - simpl in H. destruct (Py.startswith sep (c :: s)) eqn:E.
    + injection H as <- <-. now apply startswith_skipn.
    + destruct (Py.find sep s) as [[b a]|] eqn:F; [|discriminate].
      injection H as <- <-. simpl. f_equal. now apply IH.
Qed.

(** [find] fails only when the separator does not occur. *)
Lemma find_None sep s a b : Py.find sep s = None -> s <> a ++ sep ++ b.
Proof.
  revert a. induction s as [|c s IH]; intros a H E.
  - simpl in H. destruct (Py.startswith sep []) eqn:S; [discriminate|].
    symmetry in E. apply app_eq_nil in E as [-> E].
    apply app_eq_nil in E as [-> ->]. discriminate.
  - simpl in H. destruct (Py.startswith sep (c :: s)) eqn:S; [discriminate|].
    destruct (Py.find sep s) as [[x y]|] eqn:F; [discriminate|].
    destruct a as [|a0 a].
    + simpl in E. rewrite E, startswith_app in S. discriminate.
    + injection E as -> E. now apply (IH a).
Qed.

Lemma contains_true sep s :
  contains sep s = true <-> exists a b, s = a ++ sep ++ b.
Proof.
  unfold contains. split.
  - destruct (Py.find sep s) as [[a b]|] eqn:F; [|discriminate].
    intros _. exists a, b. now apply find_Some.
  - intros (a & b & E).
    destruct (Py.find sep s) as [[x y]|] eqn:F; [reflexivity|].
    exfalso. eapply find_None; eauto.
Qed.

Lemma find_shorter sep s before after :
  sep <> [] -> Py.find sep s = Some (before, after) -> length after < length s.
Proof.
  intros Hsep H. apply find_Some in H. subst s.
  rewrite !length_app. destruct sep; [congruence|]. simpl. lia.
Qed.

Lemma split_rounds_unfold n sep s :
  Py.split_rounds n sep s =
  match Py.find sep s with
  | None => [s]
  | Some (before, after) =>
      match n with
      | O => [before; after]
      | S n' => before :: Py.split_rounds n' sep after
      end
  end.
Proof. destruct n; reflexivity. Qed.

Lemma split_rounds_enough sep (Hsep : sep <> []) n m s :
  length s <= n -> length s <= m ->
  Py.split_rounds n sep s = Py.split_rounds m sep s.
Proof.
  revert m s. induction n as [|n IH]; intros m s Hn Hm;
    rewrite (split_rounds_unfold _ sep s), (split_rounds_unfold m sep s);
    destruct (Py.find sep s) as [[b a]|] eqn:F; auto;
    apply find_shorter in F; auto.
  - lia.
  - destruct m; [lia|]. f_equal. apply IH; lia.
Qed.

(** The equation of [split]: cut at the first occurrence and go on. *)
Lemma split_eq sep s :
  sep <> [] ->
  Py.split sep s =
  match Py.find sep s with
  | None => [s]
  | Some (before, after) => before :: Py.split sep after
  end.
Proof.
  intros Hsep. unfold Py.split. rewrite split_rounds_unfold.
  destruct (Py.find sep s) as [[b a]|] eqn:F; auto.
  apply find_shorter in F; auto.
  destruct (length s) as [|n] eqn:L; [lia|].
  f_equal. apply split_rounds_enough; auto; lia.
Qed.

Lemma split_not_nil sep s : Py.split sep s <> [].
Proof.
  unfold Py.split. rewrite split_rounds_unfold.
  destruct (Py.find sep s) as [[b a]|]; [destruct (length s)|]; discriminate.
Qed.

(** Without an occurrence of the separator the text is returned whole. *)
Lemma split_absent sep s : contains sep s = false -> Py.split sep s = [s].
Proof.
  unfold contains, Py.split. intros H. rewrite split_rounds_unfold.
  destruct (Py.find sep s) as [[b a]|] eqn:F; [discriminate | reflexivity].
Qed.

(** For a separator of one character. *)
Lemma find_char c s :
  Py.find [c] s =
  if existsb (Ascii.eqb c) s
  then Some (before_first c s, after_first c s) else None.
Proof.
  induction s as [|x s IH]; [reflexivity|].
  cbn [Py.find Py.startswith existsb before_first after_first length skipn].
  rewrite (Ascii.eqb_sym x c).
  destruct (Ascii.eqb c x) eqn:E; simpl.
  - destruct s; reflexivity.
  - rewrite IH. destruct (existsb (Ascii.eqb c) s); reflexivity.
Qed.

Lemma before_first_absent c s :
  existsb (Ascii.eqb c) s = false -> before_first c s = s.
Proof.
  induction s as [|x s IH]; simpl; auto.
  rewrite (Ascii.eqb_sym x c). destruct (Ascii.eqb c x); simpl; [discriminate|].
  intros H. now rewrite IH.
Qed.

(** The second field of a text cut at [c]. *)
Lemma split_char_second c s field :
  Py.item (Py.split [c] s) 1 = Ok field ->
  field = before_first c (after_first c s).
Proof.
  rewrite split_eq by discriminate. rewrite find_char.
  destruct (existsb (Ascii.eqb c) s); [|discriminate].
  rewrite split_eq by discriminate. rewrite find_char.
  destruct (existsb (Ascii.eqb c) (after_first c s)) eqn:E;
    unfold Py.item; simpl; intros H.
  - congruence.
  - rewrite before_first_absent by assumption. congruence.
Qed.

Lemma join_empty_cons (x : str) l : Py.join [] (x :: l) = x ++ Py.join [] l.
Proof. destruct l; simpl; [now rewrite app_nil_r | reflexivity]. Qed.

(** Replacing a character by nothing deletes it everywhere. *)
Lemma replace_char_empty c s : Py.replace [c] [] s = without c s.
Proof.
  unfold Py.replace.
  remember (length s) as n eqn:Hn.
  assert (Hle : length s <= n) by lia. clear Hn.
  revert s Hle. induction n as [|n IH]; intros s Hle.
  - destruct s; [reflexivity | simpl in Hle; lia].
  - rewrite split_eq by discriminate. rewrite find_char.
    destruct (existsb (Ascii.eqb c) s) eqn:E.
    + rewrite join_empty_cons, IH.
      * clear IH Hle. induction s as [|x s IHs]; [discriminate|].
        simpl in *. rewrite (Ascii.eqb_sym x c).
        destruct (Ascii.eqb c x); simpl; [reflexivity|].
        f_equal. now apply IHs.
      * clear IH. induction s as [|x s IHs]; [discriminate|].
        simpl in *. rewrite (Ascii.eqb_sym x c).
        destruct (Ascii.eqb c x); simpl in *; [lia|].
        specialize (IHs ltac:(lia) E). lia.
    + simpl. clear IH Hle. induction s as [|x s IHs]; [reflexivity|].
      simpl in *. rewrite (Ascii.eqb_sym x c).
      destruct (Ascii.eqb c x); simpl in *; [discriminate|].
      f_equal. now apply IHs.
Qed.

(** ** The lesson parser *)

(** [extract_lesson_details] returns exactly when its four steps do. *)
Lemma extract_lesson_details_Ok parser r :
  extract_lesson_details parser = Ok r <->
  exists s loc stf t fd td,
    extract_subject parser = Ok s /\
    location_and_staff (lesson_details parser) = Ok (loc, stf) /\
    item_text (lesson_details parser) 0 = Ok t /\
    parse_dates (Py.replace [LF] [] t) = Ok (fd, td) /\
    r = {| subject := s; class_location := loc; staff := stf;
           from_date := fd; to_date := td |}.
Proof.
  unfold extract_lesson_details. cbv zeta. split.
  - intros H.
    apply bind_Ok in H as (s & Hs & H).
    apply bind_Ok in H as ([loc stf] & Hl & H).
    apply bind_Ok in H as (t & Ht & H).
    apply bind_Ok in H as ([fd td] & Hd & H).
    injection H as <-. exists s, loc, stf, t, fd, td. auto.
  - intros (s & loc & stf & t & fd & td & Hs & Hl & Ht & Hd & ->).
    rewrite Hs. simpl. rewrite Hl. simpl. rewrite Ht. simpl.
    rewrite Hd. reflexivity.
Qed.

Lemma location_and_staff_short l loc stf :
  length l < 3 ->
  location_and_staff l = Ok (loc, stf) ->
  loc = None /\ item_text l 1 = Ok stf.
Proof.
  intros Hlen. unfold location_and_staff.
  apply Nat.ltb_lt in Hlen. rewrite Hlen. intros H.
  apply bind_Ok in H as (x & Hx & H). injection H as <- <-. auto.
Qed.

Lemma location_and_staff_long l loc stf :
  3 <= length l ->
  location_and_staff l = Ok (loc, stf) ->
  exists t field,
    item_text l 1 = Ok t /\
    Py.item (Py.split (py ":") t) 1 = Ok field /\
    loc = Some (Py.strip field) /\
    item_text l 2 = Ok stf.
Proof.
  intros Hlen. unfold location_and_staff.
  assert (E : (length l <? 3) = false) by (apply Nat.ltb_ge; lia).
  rewrite E. intros H.
  apply bind_Ok in H as (t & Ht & H).
  apply bind_Ok in H as (field & Hf & H).
  apply bind_Ok in H as (x & Hx & H).
  injection H as <- <-. exists t, field. auto.
Qed.

Lemma item_text_out_of_range l i :
  length l <= i -> item_text l i = Raise IndexError.
Proof.
  intros H. unfold item_text, Py.item.
  apply nth_error_None in H. now rewrite H.
Qed.

(** C1 as stated fails: with three detail items of which the second reads
    [Room: A:12], the text after the first colon is [A:12] once trimmed,
    and [extract_lesson_details] returns the location [A]. *)
Lemma extract_location_two_colons :
  3 <= length (lesson_details two_colons) /\
  item_text (lesson_details two_colons) 1 = Ok (py "Room: A:12") /\
  Py.strip (after_first ":" (py "Room: A:12")) = py "A:12" /\
  (exists r, extract_lesson_details two_colons = Ok r /\
             class_location r = Some (py "A")) /\
  ~ (forall parser r t,
       3 <= length (lesson_details parser) ->
       extract_lesson_details parser = Ok r ->
       item_text (lesson_details parser) 1 = Ok t ->
       class_location r = Some (Py.strip (after_first ":" t))).
Proof.
  assert (E : extract_lesson_details two_colons =
              Ok {| subject := py "Maths";
                    class_location := Some (py "A");
                    staff := py "J. Smith";
                    from_date := {| year := 2024; month := 9; day := 5;
                                    hour := 9; minute := 0 |};
                    to_date := {| year := 2024; month := 9; day := 5;
                                  hour := 10; minute := 0 |} |})
    by (vm_compute; reflexivity).
  split; [vm_compute; lia|].
  split; [vm_compute; reflexivity|].
  split; [vm_compute; reflexivity|].
  split; [eexists; split; [exact E | reflexivity]|].
  intros H.
  specialize (H two_colons _ (py "Room: A:12")
                ltac:(vm_compute; lia) E ltac:(vm_compute; reflexivity)).
  vm_compute in H. discriminate H.
Qed.

(** C1, amended: for a fragment with 3 or more detail items on which
    [extract_lesson_details] returns a record, the second item holds a
    colon and [class_location] is the text of that item after its first
    colon and before its next colon (to the end when there is no other),
    trimmed of surrounding white space. *)
Theorem extract_location_second_field parser r :
  3 <= length (lesson_details parser) ->
  extract_lesson_details parser = Ok r ->
  exists t,
    item_text (lesson_details parser) 1 = Ok t /\
    existsb (Ascii.eqb ":") t = true /\
    class_location r =
      Some (Py.strip (before_first ":" (after_first ":" t))).
Proof.
  intros Hlen H.
  apply extract_lesson_details_Ok in H
    as (s & loc & stf & t0 & fd & td & _ & Hl & _ & _ & ->).
  apply location_and_staff_long in Hl as (t & field & Ht & Hf & -> & _);
    [|assumption].
  exists t. split; [assumption|]. simpl. split.
  - change (py ":") with [":"%char] in Hf.
    rewrite split_eq, find_char in Hf by discriminate.
    destruct (existsb (Ascii.eqb ":") t); [reflexivity | discriminate].
  - f_equal. f_equal. now apply split_char_second.
Qed.

Lemma extract_location_second_field_witness :
  3 <= length (lesson_details two_colons) /\
  exists t,
    item_text (lesson_details two_colons) 1 = Ok t /\
    existsb (Ascii.eqb ":") t = true /\
    class_location
      {| subject := py "Maths";
         class_location := Some (py "A");
         staff := py "J. Smith";
         from_date := {| year := 2024; month := 9; day := 5;
                         hour := 9; minute := 0 |};
         to_date := {| year := 2024; month := 9; day := 5;
                       hour := 10; minute := 0 |} |} =
      Some (Py.strip (before_first ":" (after_first ":" t))).
Proof.
  split; [vm_compute; lia|].
  apply (@extract_location_second_field two_colons);
    [vm_compute; lia | vm_compute; reflexivity].
Defined.

(** C3: for a fragment with exactly 2 detail items on which
    [extract_lesson_details] returns a record, [class_location] is absent
    and [staff] is the text read from the second item. *)
Theorem extract_two_items parser r :
  length (lesson_details parser) = 2 ->
  extract_lesson_details parser = Ok r ->
  class_location r = None /\
  item_text (lesson_details parser) 1 = Ok (staff r).
Proof.
  intros Hlen H.
  apply extract_lesson_details_Ok in H
    as (s & loc & stf & t0 & fd & td & _ & Hl & _ & _ & ->).
  apply location_and_staff_short in Hl; [|lia]. exact Hl.
Qed.

Lemma extract_two_items_witness :
  length (lesson_details scenario_3_fragment) = 2 /\
  extract_lesson_details scenario_3_fragment = Ok scenario_3_record /\
  class_location scenario_3_record = None /\
  item_text (lesson_details scenario_3_fragment) 1 = Ok (py "P. Jones").
Proof.
  split; [reflexivity|].
  split; [vm_compute; reflexivity|].
  apply (@extract_two_items scenario_3_fragment scenario_3_record);
    [reflexivity | vm_compute; reflexivity].
Defined.

(** C9: with fewer than 2 detail items the branch for fewer than 3 items
    raises [IndexError] at [lesson_details[1]], so
    [extract_lesson_details] returns no record, and fails with that
    [IndexError] whenever the title was there to be read first.  The
    branch thus returns only when there are exactly 2 items. *)
Theorem extract_fewer_than_two_items parser :
  length (lesson_details parser) < 2 ->
  location_and_staff (lesson_details parser) = Raise IndexError /\
  (forall r, extract_lesson_details parser <> Ok r) /\
  (Bs.select_one title_selector parser <> None ->
   extract_lesson_details parser = Raise IndexError).
Proof.
  intros Hlen.
  assert (Hl : location_and_staff (lesson_details parser) = Raise IndexError).
  { unfold location_and_staff.
    assert (E : (length (lesson_details parser) <? 3) = true) by (apply Nat.ltb_lt; lia).
    rewrite E, item_text_out_of_range by lia. reflexivity. }
  split; [exact Hl|]. split.
  - intros r H.
    apply extract_lesson_details_Ok in H
      as (s & loc & stf & t0 & fd & td & _ & Hl' & _).
    congruence.
  - intros Htitle. unfold extract_lesson_details, extract_subject.
    cbv zeta. rewrite Hl.
    destruct (Bs.select_one title_selector parser) as [title|];
      [|congruence].
    cbn [Bs.text_of bind].
    destruct (Py.split (py ": Year") (Bs.text title)) eqn:E;
      [exfalso; eapply split_not_nil; eauto | reflexivity].
Qed.

Lemma extract_fewer_than_two_items_witness :
  length (lesson_details one_item) < 2 /\
  location_and_staff (lesson_details one_item) = Raise IndexError /\
  (forall r, extract_lesson_details one_item <> Ok r) /\
  (Bs.select_one title_selector one_item <> None ->
   extract_lesson_details one_item = Raise IndexError).
Proof.
  split; [vm_compute; lia|].
  apply (@extract_fewer_than_two_items one_item). vm_compute. lia.
Defined.

(** C10: when the text of the title does not contain [: Year], reading the
    subject does not fail and gives the whole text of the title, which is
    the subject of any record returned. *)
Theorem extract_subject_without_year parser title :
  Bs.select_one title_selector parser = Some title ->
  contains (py ": Year") (Bs.text title) = false ->
  extract_subject parser = Ok (Bs.text title) /\
  (forall r, extract_lesson_details parser = Ok r ->
             subject r = Bs.text title).
Proof.
  intros Ht Hc.
  assert (Hs : extract_subject parser = Ok (Bs.text title)).
  { unfold extract_subject. rewrite Ht. simpl.
    now rewrite split_absent. }
  split; [exact Hs|].
  intros r H.
  apply extract_lesson_details_Ok in H
    as (s & loc & stf & t0 & fd & td & Hs' & _ & _ & _ & ->).
  simpl. congruence.
Qed.

Lemma extract_subject_without_year_witness :
  extract_subject assembly = Ok (py "Assembly") /\
  (forall r, extract_lesson_details assembly = Ok r ->
             subject r = py "Assembly").
Proof.
  apply (@extract_subject_without_year assembly
           (Bs.Tag (py "div") [py "title"] [Bs.NavigableString (py "Assembly")]));
    vm_compute; reflexivity.
Defined.

(** ** The date of a lesson *)

(** C4 as stated fails: a first item whose words are those of scenario 1,
    where the white space between two of them is a single line feed, makes
    [extract_lesson_details] raise [ValueError]; the line feed is deleted
    before white space is collapsed, and [Thu,05 Sep 2024] is cut at no
    comma. *)
Lemma extract_dates_lone_line_feed :
  item_text (lesson_details lone_line_feed) 0
    = Ok (py "Thu," ++ [LF] ++ py "05 Sep 2024, 09:00 - 10:00") /\
  Py.split_ws (py "Thu," ++ [LF] ++ py "05 Sep 2024, 09:00 - 10:00")
    = Py.split_ws scenario_1_text /\
  extract_lesson_details lone_line_feed = Raise ValueError /\
  ~ (forall parser t,
       (exists s, extract_subject parser = Ok s) ->
       (exists p, location_and_staff (lesson_details parser) = Ok p) ->
       item_text (lesson_details parser) 0 = Ok t ->
       Py.split_ws t = Py.split_ws scenario_1_text ->
       exists r, extract_lesson_details parser = Ok r /\
                 from_date r = nine /\ to_date r = ten).
Proof.
  split; [vm_compute; reflexivity|].
  split; [vm_compute; reflexivity|].
  assert (E : extract_lesson_details lone_line_feed = Raise ValueError)
    by (vm_compute; reflexivity).
  split; [exact E|].
  intros H.
  destruct (H lone_line_feed _
              ltac:(eexists; vm_compute; reflexivity)
              ltac:(eexists; vm_compute; reflexivity)
              ltac:(vm_compute; reflexivity)
              ltac:(vm_compute; reflexivity)) as (r & Hr & _).
  rewrite E in Hr. discriminate Hr.
Qed.

(** C4, amended: when the first detail item, once its line feeds are
    deleted, reads as the words of [Thu, 05 Sep 2024, 09:00 - 10:00] with
    any runs of white space between and around them, and the title and
    the other items are read without failure, [extract_lesson_details]
    returns the record with [from_date] 2024-09-05 09:00 and [to_date]
    2024-09-05 10:00. *)
Theorem extract_dates_scenario parser t s loc stf :
  extract_subject parser = Ok s ->
  location_and_staff (lesson_details parser) = Ok (loc, stf) ->
  item_text (lesson_details parser) 0 = Ok t ->
  Py.split_ws (without LF t) = Py.split_ws scenario_1_text ->
  extract_lesson_details parser =
  Ok {| subject := s; class_location := loc; staff := stf;
        from_date := nine; to_date := ten |}.
Proof.
  intros Hs Hl Ht Hw.
  apply extract_lesson_details_Ok.
  exists s, loc, stf, t, nine, ten.
  repeat split; try assumption.
  rewrite replace_char_empty. unfold parse_dates. rewrite Hw.
  vm_compute. reflexivity.
Qed.

Lemma extract_dates_scenario_witness :
  extract_lesson_details ragged =
  Ok {| subject := py "Maths"; class_location := Some (py "A12");
        staff := py "J. Smith"; from_date := nine; to_date := ten |}.
Proof.
  apply (@extract_dates_scenario ragged
           ([LF] ++ py "   Thu,  05 Sep 2024," ++ [LF] ++ py "      09:00"
              ++ [ascii_of_nat 9] ++ py "-  10:00 " ++ [LF]));
    vm_compute; reflexivity.
Defined.

(** ** The first occurrence of a character *)

Lemma find_unfold (p s : str) :
  Py.find p s =
  if Py.startswith p s then Some ([], skipn (length p) s)
  else match s with
       | [] => None
       | c :: s' =>
           match Py.find p s' with
           | Some (before, after) => Some (c :: before, after)
           | None => None
           end
       end.
Proof. destruct s; reflexivity. Qed.

Lemma split_at_first (c : ascii) s :
  existsb (Ascii.eqb c) s = true ->
  s = before_first c s ++ c :: after_first c s /\
  existsb (Ascii.eqb c) (before_first c s) = false.
Proof.
  induction s as [|x s IH]; simpl; [discriminate|].
  rewrite (Ascii.eqb_sym x c). destruct (Ascii.eqb c x) eqn:E; simpl.
  - intros _. apply Ascii.eqb_eq in E. subst x. auto.
  - intros H. destruct (IH H) as [E1 E2]. rewrite E. split; [|exact E2].
    now rewrite <- E1.
Qed.

Lemma before_first_app (c : ascii) u t :
  existsb (Ascii.eqb c) u = false -> before_first c (u ++ c :: t) = u.
Proof.
  induction u as [|x u IH]; simpl.
  - now rewrite Ascii.eqb_refl.
  - rewrite (Ascii.eqb_sym x c). destruct (Ascii.eqb c x); simpl; [discriminate|].
    intros H. now rewrite IH.
Qed.

Lemma first_unique (c : ascii) u u' t t' :
  existsb (Ascii.eqb c) u = false ->
  existsb (Ascii.eqb c) u' = false ->
  u ++ c :: t = u' ++ c :: t' -> u = u'.
Proof.
  intros Hu Hu' E.
  rewrite <- (before_first_app c u t Hu), E. now apply before_first_app.
Qed.

(** ** Separators that end in a character of their own

    The marker ends in a double quote and holds no other.  For such a
    separator an occurrence cannot reach across a place where the text
    already has the closing character. *)

Section Closing_character.

Variable body : str.
Variable q : ascii.
Hypothesis q_fresh : existsb (Ascii.eqb q) body = false.

Lemma startswith_straddle x rest :
  x <> [] -> contains (body ++ [q]) x = false ->
  Py.startswith (body ++ [q]) (x ++ (body ++ [q]) ++ rest) = false.
Proof.
  set (sep := body ++ [q]) in *.
  intros Hx Hc. destruct (Py.startswith sep (x ++ sep ++ rest)) eqn:E; auto.
  exfalso. apply startswith_inv in E as [r E]. unfold sep in E.
  rewrite <- !app_assoc in E. simpl in E.
  destruct (existsb (Ascii.eqb q) x) eqn:Hqx.
  - destruct (split_at_first q x Hqx) as [Ex Hb].
    rewrite Ex in E. rewrite <- app_assoc in E. simpl in E.
    apply first_unique in E; auto.
    assert (T : contains sep x = true).
    { apply contains_true. exists [], (after_first q x).
      unfold sep. rewrite <- app_assoc. simpl. now rewrite <- E. }
    congruence.
  - rewrite app_assoc in E. apply first_unique in E; auto.
    + apply (f_equal (@length _)) in E. rewrite length_app in E.
      destruct x; [congruence | simpl in E; lia].
    + rewrite existsb_app, Hqx, q_fresh. reflexivity.
Qed.

Lemma contains_tail c x :
  contains (body ++ [q]) (c :: x) = false -> contains (body ++ [q]) x = false.
Proof.
  unfold contains. rewrite (find_unfold (body ++ [q]) (c :: x)).
  destruct (Py.startswith (body ++ [q]) (c :: x)); [discriminate|].
  destruct (Py.find (body ++ [q]) x) as [[b a]|]; [discriminate | reflexivity].
Qed.

(** The first occurrence of the separator after a text that has none is
    the one written after it. *)
Lemma find_junction x rest :
  contains (body ++ [q]) x = false ->
  Py.find (body ++ [q]) (x ++ (body ++ [q]) ++ rest) = Some (x, rest).
Proof.
  induction x as [|c x IH]; intros Hc.
  - simpl. rewrite find_unfold, startswith_app. now rewrite skipn_app_length.
  - rewrite find_unfold, startswith_straddle by (auto; discriminate).
    simpl. rewrite IH by (eapply contains_tail; eauto). reflexivity.
Qed.

(** A text that ends in the closing character, followed by any other:
    no occurrence lies across the two. *)
Lemma contains_after_closing u w :
  contains (body ++ [q]) (u ++ [q]) = false ->
  contains (body ++ [q]) w = false ->
  contains (body ++ [q]) (u ++ [q] ++ w) = false.
Proof.
  set (sep := body ++ [q]) in *.
  intros Hu Hw. destruct (contains sep (u ++ [q] ++ w)) eqn:C; auto.
  exfalso. apply contains_true in C as (a & b & E).
  rewrite !app_assoc in E. apply app_eq_app in E as [l [[E1 E2]|[E1 E2]]].
  - assert (T : contains sep (u ++ [q]) = true).
    { apply contains_true. exists a, l. now rewrite E1, <- !app_assoc. }
    congruence.
  - destruct (@exists_last _ l) as (l' & z & ->).
    { intros ->. rewrite app_nil_r in E1.
      assert (T : contains sep (u ++ [q]) = true).
      { apply contains_true. exists a, []. now rewrite <- E1, app_nil_r. }
      congruence. }
    unfold sep in E1. rewrite !app_assoc in E1.
    apply app_inj_tail in E1 as [E1 <-].
    rewrite <- app_assoc in E1.
    apply app_eq_app in E1 as [m [[E3 E4]|[E3 E4]]].
    + destruct m as [|c m]; simpl in E4.
      * assert (T : existsb (Ascii.eqb q) body = true).
        { rewrite <- E4. simpl. now rewrite Ascii.eqb_refl. }
        congruence.
      * injection E4 as -> E4.
        assert (T : contains sep w = true).
        { apply contains_true. exists m, b. rewrite E2, E4. unfold sep.
          now rewrite <- !app_assoc. }
        congruence.
    + assert (T : existsb (Ascii.eqb q) body = true).
      { rewrite E4, existsb_app. simpl. rewrite Ascii.eqb_refl.
        now rewrite orb_true_r. }
      congruence.
Qed.

End Closing_character.

(** ** The link extractor *)

Lemma marker_shape : marker = py "ajax-link=" ++ [quote_char].
Proof. reflexivity. Qed.

Lemma marker_body_fresh :
  existsb (Ascii.eqb quote_char) (py "ajax-link=") = false.
Proof. reflexivity. Qed.

Lemma first_field link :
  Py.item (Py.split quote link) 0 = Ok (before_first quote_char link).
Proof.
  unfold quote. fold quote_char.
  rewrite split_eq by discriminate. rewrite find_char.
  destruct (existsb (Ascii.eqb quote_char) link) eqn:E; [reflexivity|].
  now rewrite before_first_absent.
Qed.

Lemma inner_loop pieces acc :
  for_each pieces
    (fun acc link =>
       first <- Py.item (Py.split quote link) 0 ;; Ok (acc ++ [first]))
    acc
  = Ok (acc ++ map (before_first quote_char) pieces).
Proof.
  revert acc. induction pieces as [|p pieces IH]; intros acc; simpl.
  - now rewrite app_nil_r.
  - rewrite first_field. simpl. rewrite IH, <- app_assoc. reflexivity.
Qed.

(** Cutting a tagged text at the marker: after any text [pre] that is
    empty or ends in a double quote, the first piece is [pre] and the text
    up to the first marker, and the other pieces start with the values. *)
Lemma split_tagged rest links :
  tagged rest links ->
  forall pre,
    pre = [] \/ (exists u, pre = u ++ quote) ->
    contains marker pre = false ->
    exists p0 ps,
      Py.split marker (pre ++ rest) = (pre ++ p0) :: ps /\
      map (before_first quote_char) ps = links.
Proof.
  assert (Hjoin : forall pre x,
             pre = [] \/ (exists u, pre = u ++ quote) ->
             contains marker pre = false -> contains marker x = false ->
             contains marker (pre ++ x) = false).
  { intros pre x [->|[u ->]] Hp Hx; [exact Hx|].
    rewrite <- app_assoc. rewrite marker_shape in *.
    apply contains_after_closing; auto using marker_body_fresh. }
  induction 1 as [x Hx | x v rest links Hx Hv Hvq Hrest IH]; intros pre Hpre Hp.
  - exists x, []. split; [|reflexivity].
    apply split_absent. now apply Hjoin.
  - destruct (IH (v ++ quote)) as (p0 & ps & Hs & Hm); eauto.
    exists x, (((v ++ quote) ++ p0) :: ps). split.
    + rewrite split_eq by discriminate.
      replace (pre ++ x ++ marker ++ v ++ quote ++ rest)
        with ((pre ++ x) ++ marker ++ (v ++ quote) ++ rest)
        by (now rewrite <- !app_assoc).
      rewrite marker_shape at 1 2.
      rewrite find_junction
        by (auto using marker_body_fresh; rewrite <- marker_shape; auto).
      now rewrite Hs, <- app_assoc.
    + simpl. rewrite <- app_assoc. unfold quote at 1. fold quote_char. simpl.
      rewrite before_first_app by assumption. now rewrite Hm.
Qed.

Lemma links_of_tagged_page members html links acc :
  Json.lookup (py "html") members = Some (JStr html) ->
  tagged html links ->
  links_of_page acc (JDict members) = Ok (acc ++ links).
Proof.
  intros Hl Ht. unfold links_of_page. cbn [Json.contains Json.getitem bind].
  rewrite Hl. cbn [bind Json.split].
  destruct (split_tagged Ht (pre := [])) as (p0 & ps & Hs & Hm);
    [now left | reflexivity |].
  simpl in Hs. rewrite Hs. cbn [Py.from1 tl].
  now rewrite inner_loop, Hm.
Qed.

Lemma outer_loop pages linkss acc :
  Forall2 page_links pages linkss ->
  for_each pages links_of_page acc = Ok (acc ++ concat linkss).
Proof.
  intros H. revert acc.
  induction H as [|page links pages linkss Hp _ IH]; intros acc; simpl.
  - now rewrite app_nil_r.
  - destruct Hp as [members html links Hl Ht | members Hl].
    + rewrite (@links_of_tagged_page members html links acc Hl Ht). simpl.
      now rewrite IH, <- app_assoc.
    + unfold links_of_page at 1. cbn [Json.contains bind]. rewrite Hl.
      simpl. now rewrite IH.
Qed.

(** C5: when the pages of the response are fragments whose [html] fields,
    where present, are tagged texts, [get_calendar_html] returns the values
    that follow the markers, fragment after fragment and marker after
    marker, repeated values included. *)
Theorem get_calendar_html_links entries pages linkss :
  pages_of entries = Ok (JList pages) ->
  Forall2 page_links pages linkss ->
  get_calendar_html entries = Ok (concat linkss).
Proof.
  intros Hp Hl. unfold get_calendar_html. rewrite Hp. simpl.
  now rewrite (outer_loop [] Hl).
Qed.

(** Scenario 4 with any text around the two links. *)
Corollary get_calendar_html_scenario_4 x y z :
  contains marker x = false ->
  contains marker y = false ->
  contains marker z = false ->
  get_calendar_html
    (response_with
       [html_page (x ++ marker ++ py "/a" ++ quote ++
                   y ++ marker ++ py "/b" ++ quote ++ z)])
  = Ok [py "/a"; py "/b"].
Proof.
  intros Hx Hy Hz.
  unfold get_calendar_html.
  change (pages_of (response_with ?l)) with (Ok (JList l)).
  cbn [bind Json.iter].
  rewrite (@outer_loop _ [[py "/a"; py "/b"]] []); [reflexivity|].
  constructor; [|constructor].
  eapply page_with_html; [reflexivity|].
  repeat (first [ apply tagged_link; [assumption | reflexivity | reflexivity |]
                | apply tagged_end; assumption ]).
Qed.

Lemma get_calendar_html_links_witness :
  get_calendar_html three_pages = Ok [py "/a"; py "/b"; py "/a"].
Proof.
  apply (@get_calendar_html_links three_pages three_fragments
           [[py "/a"; py "/b"]; []; [py "/a"]]); [reflexivity|].
  constructor;
    [eapply page_with_html; [reflexivity|]
    |constructor;
      [apply page_without_html; reflexivity
      |constructor; [eapply page_with_html; [reflexivity|] | constructor]]].
  - apply (@tagged_link (py "<a ") (py "/a")); try reflexivity.
    apply (@tagged_link (py "></a> <a ") (py "/b")); try reflexivity.
    apply tagged_end. reflexivity.
  - apply (@tagged_link (py "<a ") (py "/a")); try reflexivity.
    apply tagged_end. reflexivity.
Defined.

(** C5 as stated fails: in [unclosed_value] the value that follows the
    first marker runs up to the double quote of the second marker, and
    [get_calendar_html] cuts it where that marker starts.  [tagged] leaves
    such texts out. *)
Lemma get_calendar_html_marker_in_value :
  quoted_values unclosed_value = [py "foo ajax-link="; py "bar"] /\
  get_calendar_html (response_with [html_page unclosed_value])
    = Ok [py "foo "; py "bar"] /\
  ~ (forall html,
       get_calendar_html (response_with [html_page html])
       = Ok (quoted_values html)).
Proof.
  split; [vm_compute; reflexivity|].
  assert (E : get_calendar_html (response_with [html_page unclosed_value])
              = Ok [py "foo "; py "bar"]) by (vm_compute; reflexivity).
  split; [exact E|].
  intros H. specialize (H unclosed_value). rewrite E in H.
  vm_compute in H. discriminate.
Qed.

(** ** The words of the claim on tagged texts *)

Section Values_of_tagged_texts.

Variable body : str.
Variable q : ascii.
Hypothesis q_fresh : existsb (Ascii.eqb q) body = false.

Lemma contains_suffix a y :
  contains (body ++ [q]) (a ++ y) = false -> contains (body ++ [q]) y = false.
Proof.
  induction a as [|c a IH]; simpl; [auto|].
  intros H. apply IH. eapply contains_tail; eauto.
Qed.

(** No occurrence starts inside a text that ends in the closing character
    and holds none, whatever comes after the text. *)
Lemma startswith_after_closing y rest :
  contains (body ++ [q]) (y ++ [q]) = false ->
  Py.startswith (body ++ [q]) ((y ++ [q]) ++ rest) = false.
Proof.
  intros Hc.
  destruct (Py.startswith (body ++ [q]) ((y ++ [q]) ++ rest)) eqn:E; auto.
  exfalso. apply startswith_inv in E as [r E].
  rewrite <- !app_assoc in E. simpl in E.
  assert (T : contains (body ++ [q]) (y ++ [q]) = true); [|congruence].
  apply contains_true.
  destruct (existsb (Ascii.eqb q) y) eqn:Hq.
  - destruct (split_at_first q y Hq) as [Ey Hb].
    rewrite Ey, <- app_assoc in E. simpl in E.
    apply first_unique in E; auto.
    exists [], (after_first q y ++ [q]).
    rewrite Ey at 1. rewrite E, <- !app_assoc. reflexivity.
  - apply first_unique in E; auto.
    exists [], []. now rewrite E, app_nil_r.
Qed.

End Values_of_tagged_texts.

(** A text without the marker has no value. *)
Lemma quoted_values_absent x :
  contains marker x = false -> quoted_values x = [].
Proof.
  induction x as [|c x IH]; intros H; [reflexivity|].
  cbn [quoted_values].
  assert (S : Py.startswith marker (c :: x) = false).
  { unfold contains in H. rewrite find_unfold in H.
    destruct (Py.startswith marker (c :: x)); [discriminate | reflexivity]. }
  rewrite S. apply IH. rewrite marker_shape in *.
  eapply contains_tail; eauto.
Qed.

(** The values of a text after a part in which no occurrence starts. *)
Lemma quoted_values_skip x s :
  (forall a c y, x = a ++ c :: y ->
     Py.startswith marker ((c :: y) ++ s) = false) ->
  quoted_values (x ++ s) = quoted_values s.
Proof.
  induction x as [|c x IH]; intros H; [reflexivity|].
  change ((c :: x) ++ s) with (c :: x ++ s). cbn [quoted_values].
  rewrite (H [] c x eq_refl : Py.startswith marker (c :: x ++ s) = false).
  apply IH. intros a c' y E. apply (H (c :: a) c' y). now rewrite E.
Qed.

(** On a tagged text the words of the claim give the values of the
    links: there the claim and [tagged] say the same. *)
Lemma quoted_values_tagged html links :
  tagged html links -> quoted_values html = links.
Proof.
  induction 1 as [x Hx | x v rest links Hx Hv Hvq Hrest IH].
  - now apply quoted_values_absent.
  - rewrite quoted_values_skip.
    2:{ intros a c y E. rewrite marker_shape in *.
        apply startswith_straddle;
          [exact marker_body_fresh | discriminate |].
        apply contains_suffix with (a := a).
        now rewrite <- E. }
    assert (T : quoted_values ((skipn 1 marker ++ v ++ quote) ++ rest)
                = links).
    { rewrite quoted_values_skip; [exact IH|].
      intros a c y E.
      assert (C : contains marker (skipn 1 marker ++ v ++ quote) = false).
      { change (skipn 1 marker) with (py "jax-link=" ++ [quote_char]).
        rewrite <- app_assoc. rewrite marker_shape in *.
        apply contains_after_closing;
          [exact marker_body_fresh | reflexivity | assumption]. }
      destruct (@exists_last _ (c :: y)) as (y' & z & Ey); [discriminate|].
      assert (Ez : z = quote_char).
      { rewrite Ey, !app_assoc in E. unfold quote in E.
        apply app_inj_tail in E. symmetry. apply E. }
      subst z. rewrite Ey. rewrite marker_shape in *.
      apply startswith_after_closing; [exact marker_body_fresh|].
      apply contains_suffix with (a := a).
      now rewrite <- Ey, <- E. }
    rewrite <- !app_assoc in T.
    assert (S : Py.startswith marker (marker ++ v ++ quote ++ rest) = true)
      by apply startswith_app.
    assert (K : skipn (length marker) (marker ++ v ++ quote ++ rest)
                = v ++ quote_char :: rest) by apply skipn_app_length.
    revert S K T.
    change (marker ++ v ++ quote ++ rest)
      with (ascii_of_nat 97 :: skipn 1 marker ++ v ++ quote ++ rest).
    intros S K T. cbn [quoted_values]. rewrite S, K, T.
    now rewrite before_first_app.
Qed.

(** ** The calendar builder *)

Section Calendar_properties.

Variable astimezone : datetime -> aware_datetime.

Lemma subcomponents_fold (ls : list lesson) cal :
  Ical.subcomponents
    (fold_left
       (fun cal l => Ical.add_component cal (create_calendar_event astimezone l))
       ls cal)
  = Ical.subcomponents cal ++ map (create_calendar_event astimezone) ls.
Proof.
  revert cal. induction ls as [|l ls IH]; intros cal; simpl.
  - now rewrite app_nil_r.
  - rewrite IH. destruct cal as [n ps subs]. simpl.
    now rewrite <- app_assoc.
Qed.

(** One event for each lesson, in the order of the list. *)
Lemma create_calendar_subcomponents ls :
  Ical.subcomponents (create_calendar astimezone ls)
  = map (create_calendar_event astimezone) ls.
Proof. unfold create_calendar. now rewrite subcomponents_fold. Qed.

(** The five properties of an event. *)
Lemma create_calendar_event_properties l :
  let e := create_calendar_event astimezone l in
  Ical.get e (py "summary") = Some (Ical.One (Ical.vText (subject l))) /\
  Ical.get e (py "location")
    = Some (Ical.One (Ical.text_value (class_location l))) /\
  Ical.get e (py "description") = Some (Ical.One (Ical.vText (staff l))) /\
  Ical.get e (py "dtstart")
    = Some (Ical.One (Ical.vDDDTypes (astimezone (from_date l)))) /\
  Ical.get e (py "dtend")
    = Some (Ical.One (Ical.vDDDTypes (astimezone (to_date l)))).
Proof. repeat split. Qed.

(** The fixed properties of the calendar stay as they were set. *)
Theorem create_calendar_header ls :
  Ical.name_of (create_calendar astimezone ls) = py "VCALENDAR" /\
  Ical.get (create_calendar astimezone ls) (py "prodid")
    = Some (Ical.One (Ical.vText CALENDAR_PROD_ID)) /\
  Ical.get (create_calendar astimezone ls) (py "version")
    = Some (Ical.One (Ical.vText (py "2.0"))).
Proof.
  unfold create_calendar.
  assert (H : forall cal,
             Ical.name_of (fold_left
               (fun cal l => Ical.add_component cal
                               (create_calendar_event astimezone l)) ls cal)
             = Ical.name_of cal /\
             Ical.properties (fold_left
               (fun cal l => Ical.add_component cal
                               (create_calendar_event astimezone l)) ls cal)
             = Ical.properties cal).
  { induction ls as [|l ls' IH]; intros cal; simpl; [auto|].
    destruct (IH (Ical.add_component cal (create_calendar_event astimezone l)))
      as [-> ->]. destruct cal; auto. }
  destruct (H (new_calendar)) as [Hn Hp].
  unfold Ical.get. rewrite Hn, Hp. repeat split.
Qed.

(** C2, on the code: [create_calendar] makes one event for each of the N
    records, in the order of the list, and the event of a record holds its
    subject as summary, its staff as description, its two timestamps
    converted as start and end, and as location the record's location
    when it has one.  For a record without location the event holds the
    location [None], a text of four letters, where the claim has the
    absent location of the record. *)
Theorem create_calendar_events ls :
  length (Ical.subcomponents (create_calendar astimezone ls)) = length ls /\
  forall i l,
    nth_error ls i = Some l ->
    exists e,
      nth_error (Ical.subcomponents (create_calendar astimezone ls)) i
        = Some e /\
      Ical.get e (py "summary") = Some (Ical.One (Ical.vText (subject l))) /\
      Ical.get e (py "location")
        = Some (Ical.One (Ical.vText
                  match class_location l with
                  | Some location => location
                  | None => py "None"
                  end)) /\
      Ical.get e (py "description") = Some (Ical.One (Ical.vText (staff l))) /\
      Ical.get e (py "dtstart")
        = Some (Ical.One (Ical.vDDDTypes (astimezone (from_date l)))) /\
      Ical.get e (py "dtend")
        = Some (Ical.One (Ical.vDDDTypes (astimezone (to_date l)))).
Proof.
  rewrite create_calendar_subcomponents. split.
  - apply length_map.
  - intros i l Hl. exists (create_calendar_event astimezone l). split.
    + now apply map_nth_error.
    + destruct (create_calendar_event_properties l) as (H1 & H2 & H3 & H4 & H5).
      repeat split; try assumption.
      rewrite H2. destruct (class_location l); reflexivity.
Qed.

(** C6, on the code: the event of a record without location does have a
    location property, the text [None]; summary, description, start and
    end are set as for any record. *)
Theorem create_calendar_event_without_location s stf fd td :
  Ical.get
    (create_calendar_event astimezone
       {| subject := s; class_location := None; staff := stf;
          from_date := fd; to_date := td |})
    (py "location")
  = Some (Ical.One (Ical.vText (py "None"))) /\
  Ical.get
    (create_calendar_event astimezone
       {| subject := s; class_location := None; staff := stf;
          from_date := fd; to_date := td |})
    (py "summary")
  = Some (Ical.One (Ical.vText s)) /\
  Ical.get
    (create_calendar_event astimezone
       {| subject := s; class_location := None; staff := stf;
          from_date := fd; to_date := td |})
    (py "description")
  = Some (Ical.One (Ical.vText stf)) /\
  Ical.get
    (create_calendar_event astimezone
       {| subject := s; class_location := None; staff := stf;
          from_date := fd; to_date := td |})
    (py "dtstart")
  = Some (Ical.One (Ical.vDDDTypes (astimezone fd))) /\
  Ical.get
    (create_calendar_event astimezone
       {| subject := s; class_location := None; staff := stf;
          from_date := fd; to_date := td |})
    (py "dtend")
  = Some (Ical.One (Ical.vDDDTypes (astimezone td))).
Proof. repeat split. Qed.

(** Without lessons the calendar has its two fixed properties and no
    event. *)
Theorem create_calendar_empty :
  create_calendar astimezone [] = new_calendar /\
  Ical.subcomponents (create_calendar astimezone []) = [].
Proof. split; reflexivity. Qed.

End Calendar_properties.

(** ** Two hosts *)

(** What the loop of [create_calendar] makes of a calendar. *)
Lemma fold_add_component (event : lesson -> Ical.component) ls cal :
  fold_left (fun cal l => Ical.add_component cal (event l)) ls cal
  = Ical.Component (Ical.name_of cal) (Ical.properties cal)
      (Ical.subcomponents cal ++ map event ls).
Proof.
  revert cal. induction ls as [|l ls IH]; intros cal; simpl.
  - rewrite app_nil_r. now destruct cal.
  - rewrite IH. destruct cal as [n ps subs]. simpl.
    now rewrite <- app_assoc.
Qed.

(** C8 as stated fails: the calendar of one and the same list, that of
    scenario 3, starts at 09:00 when it is made on a host on universal
    time and at 13:00 on a host four hours behind. *)
Lemma create_calendar_two_hosts :
  (exists e,
     Ical.subcomponents (create_calendar as_utc [scenario_3_record]) = [e] /\
     Ical.get e (py "dtstart")
       = Some (Ical.One (Ical.vDDDTypes {| wall := nine; utcoffset := 0 |}))) /\
  (exists e,
     Ical.subcomponents (create_calendar (behind_utc 4) [scenario_3_record])
       = [e] /\
     Ical.get e (py "dtstart")
       = Some (Ical.One (Ical.vDDDTypes {| wall := one_pm; utcoffset := 0 |}))) /\
  create_calendar as_utc [scenario_3_record]
    <> create_calendar (behind_utc 4) [scenario_3_record].
Proof.
  split; [eexists; split; reflexivity|].
  split; [eexists; split; reflexivity|].
  intros H. vm_compute in H. discriminate.
Qed.

Section Two_hosts.

(** [astimezone] as the two invocations find it. *)
Variables here there : datetime -> aware_datetime.

(** C8, as the code has it: two invocations of [create_calendar] on the
    same list return the same calendar exactly when the host reads every
    start and every end of the list alike in both. *)
Theorem create_calendar_same_calendar ls :
  create_calendar here ls = create_calendar there ls <->
  Forall (fun l => here (from_date l) = there (from_date l) /\
                   here (to_date l) = there (to_date l)) ls.
Proof.
  unfold create_calendar. rewrite !fold_add_component.
  cbn [Ical.subcomponents new_calendar Ical.add_text Ical.add_value
       Ical.Calendar app].
  split.
  - intros H. injection H as H.
    induction ls as [|l ls IH]; [constructor|].
    cbn [map] in H.
    assert (He : create_calendar_event here l = create_calendar_event there l)
      by (apply (f_equal (fun es => hd Ical.Event es)) in H; exact H).
    assert (Hrest : map (create_calendar_event here) ls
                    = map (create_calendar_event there) ls)
      by (apply (f_equal (@tl _)) in H; exact H).
    constructor; [|now apply IH].
    pose proof (create_calendar_event_properties here l)
      as (_ & _ & _ & S1 & D1).
    pose proof (create_calendar_event_properties there l)
      as (_ & _ & _ & S2 & D2).
    cbv zeta in S1, D1, S2, D2. rewrite He in S1, D1.
    split; congruence.
  - intros H. f_equal.
    induction H as [|l ls [Hf Ht] _ IH]; [reflexivity|].
    cbn [map]. rewrite IH. f_equal.
    unfold create_calendar_event. now rewrite Hf, Ht.
Qed.

End Two_hosts.

(** The record of scenario 3 has no location; its event has one. *)
Lemma create_calendar_scenario_3 astimezone :
  class_location scenario_3_record = None /\
  exists e,
    Ical.subcomponents (create_calendar astimezone [scenario_3_record]) = [e] /\
    Ical.get e (py "location") = Some (Ical.One (Ical.vText (py "None"))).
Proof. split; [reflexivity|]. eexists. split; reflexivity. Qed.

(** ** The publisher *)

(** C7, on the code: an [Exception] raised anywhere in the [try] block is
    caught and printed.  When it was raised after the temporary file was
    made, the file is closed and [upload_ical_to_s3] returns; when it was
    raised by [tempfile.TemporaryFile()] itself, the [finally] clause
    reads [temp_file], which was never bound, and [UnboundLocalError]
    reaches the caller, where the claim has no exception. *)
Theorem upload_failure_in_try_block env cal e :
  S3.boto3_client env = S3.Returns tt ->
  snd (snd (S3.try_block env cal)) = S3.Raises e ->
  S3.is_Exception e = true ->
  S3.print env (py "Failed to upload file to S3: " ++ S3.message e)
    = S3.Returns tt ->
  S3.close env = S3.Returns tt ->
  S3.upload_ical_to_s3 env cal =
  match S3.TemporaryFile env with
  | S3.Returns _ =>
      ([S3.Printed (py "Failed to upload file to S3: " ++ S3.message e);
        S3.Closed],
       S3.Returns tt)
  | S3.Raises _ =>
      ([S3.Printed (py "Failed to upload file to S3: " ++ S3.message e)],
       S3.Raises S3.UnboundLocalError)
  end.
Proof.
  intros Hc Hs He Hp Hcl.
  unfold S3.upload_ical_to_s3, S3.try_block in *. rewrite Hc.
  destruct (S3.TemporaryFile env) as [[]|e0].
  - assert (Hf : fst (S3.serialize_and_upload env cal) = []).
    { revert Hs. cbn [snd]. unfold S3.serialize_and_upload.
      destruct (S3.to_ical env cal); [|reflexivity].
      destruct (S3.write env a); [|reflexivity].
      destruct (S3.seek env); [|reflexivity].
      destruct (S3.upload_fileobj env a); [discriminate | reflexivity]. }
    destruct (S3.serialize_and_upload env cal) as [effects r].
    cbn [fst snd] in Hs, Hf. subst effects r.
    unfold S3.except_clause. rewrite He, Hp.
    unfold S3.finally_clause. rewrite Hcl. reflexivity.
  - cbn [snd] in Hs. injection Hs as ->.
    unfold S3.except_clause. rewrite He, Hp. reflexivity.
Qed.

Lemma upload_failure_in_try_block_witness :
  S3.upload_ical_to_s3 no_temporary_file Ical.Calendar =
  ([S3.Printed (py "Failed to upload file to S3: No usable temporary directory found")],
   S3.Raises S3.UnboundLocalError).
Proof.
  apply (@upload_failure_in_try_block no_temporary_file Ical.Calendar
           (S3.Error (py "No usable temporary directory found")));
    reflexivity.
Defined.

(** When the temporary file cannot be created the failure is printed as
    well, but [temp_file] was never bound and the [finally] clause raises
    [UnboundLocalError] to the caller. *)
Remark upload_without_temporary_file env cal msg :
  S3.boto3_client env = S3.Returns tt ->
  S3.TemporaryFile env = S3.Raises (S3.Error msg) ->
  snd (S3.upload_ical_to_s3 env cal) = S3.Raises S3.UnboundLocalError.
Proof.
  intros Hc Ht. unfold S3.upload_ical_to_s3, S3.try_block. rewrite Hc, Ht.
  unfold S3.except_clause. cbn [S3.is_Exception].
  destruct (S3.print env (py "Failed to upload file to S3: "
                          ++ S3.message (S3.Error msg))); reflexivity.
Qed.


(** * Further properties *)

(** ** More on finding and splitting *)

(** No occurrence of the separator lies before the first one. *)
Lemma find_before_free sep s before after :
  sep <> [] ->
  Py.find sep s = Some (before, after) ->
  contains sep before = false.
Proof.
  intros Hsep. revert before.
  induction s as [|c s IH]; intros before H; rewrite find_unfold in H.
  - destruct (Py.startswith sep []) eqn:E; [|discriminate].
    destruct sep; [congruence | discriminate].
  - destruct (Py.startswith sep (c :: s)) eqn:E.
    + injection H as <- _. destruct sep; [congruence | reflexivity].
    + destruct (Py.find sep s) as [[b a]|] eqn:F; [|discriminate].
      injection H as <- <-. specialize (IH b eq_refl).
      unfold contains in *. rewrite find_unfold.
      destruct (Py.startswith sep (c :: b)) eqn:E'.
      * apply startswith_inv in E' as [rest E'].
        apply find_Some in F. rewrite F in E.
        change (c :: b ++ sep ++ a) with ((c :: b) ++ sep ++ a) in E.
        rewrite E', <- app_assoc, startswith_app in E. discriminate.
      * destruct (Py.find sep b) as [[x y]|]; [discriminate | reflexivity].
Qed.

(** The pieces that [split] returns hold no occurrence of the separator. *)
Lemma split_pieces_free sep s :
  sep <> [] ->
  Forall (fun piece => contains sep piece = false) (Py.split sep s).
Proof.
  intros Hsep.
  remember (length s) as n eqn:Hn.
  assert (Hle : length s <= n) by lia. clear Hn.
  revert s Hle. induction n as [|n IH]; intros s Hle;
    rewrite split_eq by assumption;
    destruct (Py.find sep s) as [[b a]|] eqn:F.
  - apply find_shorter in F; [lia | assumption].
  - constructor; [|constructor]. unfold contains. now rewrite F.
  - constructor; [eapply find_before_free; eauto|].
    apply IH. apply find_shorter in F; [lia | assumption].
  - constructor; [|constructor]. unfold contains. now rewrite F.
Qed.

Lemma before_first_prefix c s :
  exists rest, s = before_first c s ++ rest.
Proof.
  induction s as [|x s [rest IH]]; simpl.
  - now exists [].
  - destruct (Ascii.eqb x c).
    + now exists (x :: s).
    + exists rest. simpl. now rewrite <- IH.
Qed.

Lemma before_first_free c s :
  existsb (Ascii.eqb c) (before_first c s) = false.
Proof.
  induction s as [|x s IH]; simpl; [reflexivity|].
  destruct (Ascii.eqb x c) eqn:E; simpl; [reflexivity|].
  now rewrite (Ascii.eqb_sym c x), E.
Qed.

(** A text without the separator has none in its prefixes. *)
Lemma contains_prefix sep p rest :
  contains sep (p ++ rest) = false -> contains sep p = false.
Proof.
  intros H. destruct (contains sep p) eqn:C; [|reflexivity].
  apply contains_true in C as (a & b & ->).
  assert (T : contains sep ((a ++ sep ++ b) ++ rest) = true).
  { apply contains_true. exists a, (b ++ rest). now rewrite <- !app_assoc. }
  congruence.
Qed.

(** ** More on the link extractor *)

Lemma for_each_app {A S} (l1 l2 : list A) (body : S -> A -> result S) acc :
  for_each (l1 ++ l2) body acc =
  (mid <- for_each l1 body acc ;; for_each l2 body mid).
Proof.
  revert acc. induction l1 as [|a l1 IH]; intros acc; simpl; [reflexivity|].
  destruct (body acc a); simpl; [apply IH | reflexivity].
Qed.

(** What a page adds does not depend on the links found before it. *)
Lemma links_of_page_acc acc h :
  links_of_page acc h = (new <- links_of_page [] h ;; Ok (acc ++ new)).
Proof.
  unfold links_of_page.
  destruct (Json.contains (py "html") h) as [[|]|e]; cbn [bind].
  - destruct (Json.getitem h (py "html")) as [v|e]; cbn [bind]; [|reflexivity].
    destruct (Json.split v marker) as [pieces|e]; cbn [bind]; [|reflexivity].
    now rewrite !inner_loop.
  - now rewrite app_nil_r.
  - reflexivity.
Qed.

Lemma outer_loop_acc hs acc :
  for_each hs links_of_page acc =
  (new <- for_each hs links_of_page [] ;; Ok (acc ++ new)).
Proof.
  revert acc. induction hs as [|h hs IH]; intros acc; simpl.
  - now rewrite app_nil_r.
  - rewrite (links_of_page_acc acc h).
    destruct (links_of_page [] h) as [new|e]; cbn [bind]; [|reflexivity].
    rewrite (IH (acc ++ new)), (IH new).
    destruct (for_each hs links_of_page []) as [r|e]; cbn [bind];
      [now rewrite <- app_assoc | reflexivity].
Qed.

Lemma pages_of_response_with pages :
  pages_of (response_with pages) = Ok (JList pages).
Proof. reflexivity. Qed.

(** The links of a response are those of its first pages followed by
    those of the pages after them, and the extraction fails when it fails
    on either part, with the error of the first part that fails. *)
Theorem get_calendar_html_app ps qs :
  get_calendar_html (response_with (ps ++ qs)) =
  (first <- get_calendar_html (response_with ps) ;;
   second <- get_calendar_html (response_with qs) ;;
   Ok (first ++ second)).
Proof.
  unfold get_calendar_html. rewrite !pages_of_response_with.
  cbn [bind Json.iter]. rewrite for_each_app.
  destruct (for_each ps links_of_page []) as [a|e]; cbn [bind]; [|reflexivity].
  apply outer_loop_acc.
Qed.

Lemma links_of_page_new h new :
  links_of_page [] h = Ok new -> Forall link_shape new.
Proof.
  unfold links_of_page. intros H.
  apply bind_Ok in H as (present & Hc & H).
  destruct present; [|injection H as <-; constructor].
  apply bind_Ok in H as (v & Hv & H).
  apply bind_Ok in H as (pieces & Hp & H).
  rewrite inner_loop in H. injection H as <-. simpl.
  destruct v; try discriminate. injection Hp as <-.
  assert (Hfree : Forall (fun p => contains marker p = false)
                    (Py.from1 (Py.split marker s))).
  { pose proof (@split_pieces_free marker s ltac:(discriminate)) as F.
    destruct (Py.split marker s); [constructor|].
    simpl. now inversion F. }
  induction Hfree as [|p ps Hp _ IH]; simpl; constructor; [|exact IH].
  split; [apply before_first_free|].
  destruct (before_first_prefix quote_char p) as [rest E].
  rewrite E in Hp. now apply contains_prefix in Hp.
Qed.

Lemma outer_loop_new hs links :
  for_each hs links_of_page [] = Ok links -> Forall link_shape links.
Proof.
  revert links. induction hs as [|h hs IH]; intros links H; simpl in H.
  - injection H as <-. constructor.
  - apply bind_Ok in H as (new & Hn & H).
    rewrite outer_loop_acc in H.
    apply bind_Ok in H as (r & Hr & H). injection H as <-.
    apply Forall_app. split; [exact (links_of_page_new _ Hn) | now apply IH].
Qed.

(** Whatever the response, a link that [get_calendar_html] returns holds
    no double quote and no occurrence of the marker. *)
Theorem get_calendar_html_link_shape entries links :
  get_calendar_html entries = Ok links -> Forall link_shape links.
Proof.
  unfold get_calendar_html. intros H.
  apply bind_Ok in H as (pages & _ & H).
  apply bind_Ok in H as (hs & _ & H).
  now apply outer_loop_new in H.
Qed.

Lemma get_calendar_html_link_shape_witness :
  Forall link_shape [py "/a"; py "/b"; py "/a"].
Proof.
  apply (@get_calendar_html_link_shape three_pages). vm_compute. reflexivity.
Defined.

(** ** More on trimming *)

Lemma lstrip_suffix s : exists ws, s = ws ++ Py.lstrip s.
Proof.
  induction s as [|c s [ws IH]]; simpl.
  - now exists [].
  - destruct (Py.isspace c).
    + exists (c :: ws). simpl. now rewrite <- IH.
    + now exists [].
Qed.

Lemma lstrip_head s : head_not_space (Py.lstrip s) = true.
Proof.
  induction s as [|c s IH]; simpl; [reflexivity|].
  destruct (Py.isspace c) eqn:E; [exact IH | simpl; now rewrite E].
Qed.

Lemma lstrip_same s : head_not_space s = true -> Py.lstrip s = s.
Proof.
  destruct s as [|c s]; simpl; [reflexivity|].
  destruct (Py.isspace c); [discriminate | reflexivity].
Qed.

(** A trimmed text starts and ends with a character that is not white
    space, so trimming it again changes nothing. *)
Lemma strip_trimmed s :
  head_not_space (Py.strip s) = true /\
  head_not_space (rev (Py.strip s)) = true.
Proof.
  unfold Py.strip.
  set (u := Py.lstrip s).
  set (v := Py.lstrip (rev u)).
  assert (Hu : head_not_space u = true) by apply lstrip_head.
  assert (Hv : head_not_space v = true) by apply lstrip_head.
  rewrite rev_involutive. split; [|exact Hv].
  destruct (lstrip_suffix (rev u)) as [ws E]. fold v in E.
  apply (f_equal (@rev _)) in E. rewrite rev_involutive, rev_app_distr in E.
  destruct (rev v) as [|c t]; [reflexivity|].
  rewrite E in Hu. exact Hu.
Qed.

Lemma strip_strip s : Py.strip (Py.strip s) = Py.strip s.
Proof.
  destruct (strip_trimmed s) as [H1 H2].
  unfold Py.strip at 1.
  now rewrite (lstrip_same _ H1), (lstrip_same _ H2), rev_involutive.
Qed.

(** Trimming brings in no character. *)
Lemma strip_chars f s :
  existsb f s = false -> existsb f (Py.strip s) = false.
Proof.
  intros H. destruct (existsb f (Py.strip s)) eqn:E; [|reflexivity].
  apply existsb_exists in E as (c & Hin & Hc).
  assert (Hs : In c s).
  { unfold Py.strip in Hin. apply in_rev in Hin.
    destruct (lstrip_suffix (rev (Py.lstrip s))) as [ws E1].
    assert (H1 : In c (rev (Py.lstrip s)))
      by (rewrite E1; apply in_or_app; now right).
    apply in_rev in H1.
    destruct (lstrip_suffix s) as [ws' E2]. rewrite E2.
    apply in_or_app. now right. }
  assert (T : existsb f s = true) by (apply existsb_exists; eauto).
  congruence.
Qed.

(** ** More on the lesson parser *)

Lemma bind_Raise {A B} (m : result A) (k : A -> result B) e :
  bind m k = Raise e ->
  m = Raise e \/ exists a, m = Ok a /\ k a = Raise e.
Proof. destruct m; simpl; [eauto | intros H; left; congruence]. Qed.

(** The subject is the text of the title up to its first [: Year], or
    the whole text when there is none; it never holds [: Year]. *)
Theorem extract_subject_shape parser r :
  extract_lesson_details parser = Ok r ->
  exists title rest,
    Bs.select_one title_selector parser = Some title /\
    Bs.text title = subject r ++ rest /\
    (rest = [] \/ exists tail, rest = py ": Year" ++ tail) /\
    contains (py ": Year") (subject r) = false.
Proof.
  intros H.
  apply extract_lesson_details_Ok in H
    as (s & loc & stf & t0 & fd & td & Hs & _ & _ & _ & ->).
  cbn [subject]. unfold extract_subject in Hs.
  destruct (Bs.select_one title_selector parser) as [title|]; [|discriminate].
  cbn [Bs.text_of bind] in Hs. exists title.
  rewrite split_eq in Hs by discriminate.
  destruct (Py.find (py ": Year") (Bs.text title)) as [[b a]|] eqn:F;
    injection Hs as <-.
  - exists (py ": Year" ++ a). repeat split.
    + now apply find_Some.
    + right. now exists a.
    + eapply find_before_free; eauto. discriminate.
  - exists []. repeat split.
    + now rewrite app_nil_r.
    + now left.
    + unfold contains. now rewrite F.
Qed.

Lemma extract_subject_shape_witness :
  exists title rest,
    Bs.select_one title_selector scenario_3_fragment = Some title /\
    Bs.text title = subject scenario_3_record ++ rest /\
    (rest = [] \/ exists tail, rest = py ": Year" ++ tail) /\
    contains (py ": Year") (subject scenario_3_record) = false.
Proof.
  apply (@extract_subject_shape scenario_3_fragment scenario_3_record).
  vm_compute. reflexivity.
Defined.

(** A location, when the record has one, comes from a fragment with 3 or
    more detail items, holds no colon, and has no white space at either
    end. *)
Theorem extract_location_clean parser r location :
  extract_lesson_details parser = Ok r ->
  class_location r = Some location ->
  3 <= length (lesson_details parser) /\
  existsb (Ascii.eqb ":") location = false /\
  Py.strip location = location.
Proof.
  intros H Hloc.
  apply extract_lesson_details_Ok in H
    as (s & loc & stf & t0 & fd & td & _ & Hl & _ & _ & ->).
  cbn [class_location] in Hloc. subst loc.
  destruct (Nat.lt_ge_cases (length (lesson_details parser)) 3) as [Hlt|Hge].
  - apply location_and_staff_short in Hl as [Hn _]; [discriminate | assumption].
  - split; [assumption|].
    apply location_and_staff_long in Hl as (t & field & _ & Hf & E & _);
      [|assumption].
    injection E as ->.
    change (py ":") with [":"%char] in Hf.
    apply split_char_second in Hf. subst field. split.
    + apply strip_chars, before_first_free.
    + apply strip_strip.
Qed.

Lemma extract_location_clean_witness :
  3 <= length (lesson_details two_colons) /\
  existsb (Ascii.eqb ":") (py "A") = false /\
  Py.strip (py "A") = py "A".
Proof.
  apply (@extract_location_clean two_colons
           {| subject := py "Maths";
              class_location := Some (py "A");
              staff := py "J. Smith";
              from_date := nine; to_date := ten |});
    vm_compute; reflexivity.
Defined.

(** In a record returned the location is absent exactly when the fragment
    has 2 detail items. *)
Theorem extract_location_absent_iff parser r :
  extract_lesson_details parser = Ok r ->
  (class_location r = None <-> length (lesson_details parser) = 2).
Proof.
  intros H.
  apply extract_lesson_details_Ok in H
    as (s & loc & stf & t0 & fd & td & _ & Hl & _ & _ & ->).
  cbn [class_location].
  destruct (Nat.lt_ge_cases (length (lesson_details parser)) 3) as [Hlt|Hge].
  - destruct (location_and_staff_short _ Hlt Hl) as [-> Hs].
    split; [intros _ | reflexivity].
    destruct (Nat.lt_ge_cases (length (lesson_details parser)) 2) as [H2|H2];
      [|lia].
    rewrite item_text_out_of_range in Hs by lia. discriminate.
  - apply location_and_staff_long in Hl as (t & field & _ & _ & -> & _);
      [|assumption].
    split; [discriminate | lia].
Qed.

Lemma extract_location_absent_iff_witness :
  class_location scenario_3_record = None <->
  length (lesson_details scenario_3_fragment) = 2.
Proof.
  apply (@extract_location_absent_iff scenario_3_fragment scenario_3_record).
  vm_compute. reflexivity.
Defined.

(** With 3 or more detail items the staff of a record returned is the
    text read from the third item. *)
Theorem extract_staff_third_item parser r :
  3 <= length (lesson_details parser) ->
  extract_lesson_details parser = Ok r ->
  item_text (lesson_details parser) 2 = Ok (staff r).
Proof.
  intros Hlen H.
  apply extract_lesson_details_Ok in H
    as (s & loc & stf & t0 & fd & td & _ & Hl & _ & _ & ->).
  apply location_and_staff_long in Hl as (t & field & _ & _ & _ & Hs);
    assumption.
Qed.

Lemma extract_staff_third_item_witness :
  item_text (lesson_details two_colons) 2 = Ok (py "J. Smith").
Proof.
  apply (@extract_staff_third_item two_colons
           {| subject := py "Maths";
              class_location := Some (py "A");
              staff := py "J. Smith";
              from_date := nine; to_date := ten |});
    [vm_compute; lia | vm_compute; reflexivity].
Defined.







Lemma item_text_firstn l i n :
  i < n -> item_text (firstn n l) i = item_text l i.
Proof.
  intros H. unfold item_text, Py.item. rewrite nth_error_firstn.
  apply Nat.ltb_lt in H. now rewrite H.
Qed.

Lemma location_and_staff_firstn l :
  3 <= length l -> location_and_staff (firstn 3 l) = location_and_staff l.
Proof.
  intros H. unfold location_and_staff.
  rewrite length_firstn, Nat.min_l by assumption.
  assert (E : (length l <? 3) = false) by (apply Nat.ltb_ge; lia).
  rewrite E. cbn [Nat.ltb Nat.leb].
  now rewrite !item_text_firstn by lia.
Qed.

(** Detail items after the third are never read: two fragments with the
    same title text and the same first three items give the same result. *)
Theorem extract_ignores_later_items parser1 parser2 :
  extract_subject parser1 = extract_subject parser2 ->
  firstn 3 (lesson_details parser1) = firstn 3 (lesson_details parser2) ->
  3 <= length (lesson_details parser1) ->
  3 <= length (lesson_details parser2) ->
  extract_lesson_details parser1 = extract_lesson_details parser2.
Proof.
  intros Hs Hf H1 H2. unfold extract_lesson_details. cbv zeta.
  rewrite Hs.
  rewrite <- (location_and_staff_firstn _ H1),
          <- (location_and_staff_firstn _ H2), Hf.
  rewrite <- (@item_text_firstn (lesson_details parser1) 0 3) by lia.
  rewrite <- (@item_text_firstn (lesson_details parser2) 0 3) by lia.
  now rewrite Hf.
Qed.

Lemma extract_ignores_later_items_witness :
  extract_lesson_details two_colons = extract_lesson_details four_items.
Proof.
  apply (@extract_ignores_later_items two_colons four_items);
    [reflexivity | reflexivity | vm_compute; lia | vm_compute; lia].
Defined.

(** ** The timestamps that [strptime] returns *)

Lemma all_ascii_complete c : In c all_ascii.
Proof.
  unfold all_ascii. rewrite <- (ascii_nat_embedding c).
  apply in_map, in_seq. pose proof (nat_ascii_bounded c). lia.
Qed.

Lemma check_single (P : ascii -> bool) :
  forallb P all_ascii = true -> forall a, P a = true.
Proof.
  intros H a. rewrite forallb_forall in H. apply H, all_ascii_complete.
Qed.

Lemma check_pairs (P : ascii -> ascii -> bool) :
  forallb (fun a => forallb (P a) all_ascii) all_ascii = true ->
  forall a b, P a b = true.
Proof.
  intros H a b. apply check_single. revert a. now apply check_single.
Qed.

(** A group of one or two characters reads at most the first two
    characters of the text, so its matches can be checked one pair of
    characters at a time. *)
Lemma group_d_range s :
  forallb (fun o => in_range 1 31 (Strptime.int (fst o))) (Strptime.group_d s)
  = true.
Proof.
  destruct s as [|a [|b rest]].
  - reflexivity.
  - revert a. apply check_single. vm_compute. reflexivity.
  - revert a b. apply check_pairs. vm_compute. reflexivity.
Qed.

Lemma group_H_range s :
  forallb (fun o => in_range 0 23 (Strptime.int (fst o))) (Strptime.group_H s)
  = true.
Proof.
  destruct s as [|a [|b rest]].
  - reflexivity.
  - revert a. apply check_single. vm_compute. reflexivity.
  - revert a b. apply check_pairs. vm_compute. reflexivity.
Qed.

Lemma group_M_range s :
  forallb (fun o => in_range 0 59 (Strptime.int (fst o))) (Strptime.group_M s)
  = true.
Proof.
  destruct s as [|a [|b rest]].
  - reflexivity.
  - revert a. apply check_single. vm_compute. reflexivity.
  - revert a b. apply check_pairs. vm_compute. reflexivity.
Qed.

Lemma in_seq_parser {A B} (p : Strptime.parser A) (k : A -> Strptime.parser B)
  s b r :
  In (b, r) (Strptime.seq p k s) ->
  exists a r', In (a, r') (p s) /\ In (b, r) (k a r').
Proof.
  unfold Strptime.seq. intros H.
  apply in_flat_map in H as ([a r'] & H1 & H2). eauto.
Qed.

Lemma in_ret {A} (a b : A) s r :
  In (b, r) (Strptime.ret a s) -> b = a /\ r = s.
Proof. simpl. intros [H|[]]. injection H as <- <-. auto. Qed.

Lemma in_sat f s c r :
  In (c, r) (Strptime.sat f s) -> f c = true /\ s = c :: r.
Proof.
  destruct s as [|x s]; simpl; [tauto|].
  destruct (f x) eqn:E; simpl; [|tauto].
  intros [H|[]]. injection H as <- <-. auto.
Qed.

Lemma in_alts {A} (ps : list (Strptime.parser A)) s o :
  In o (Strptime.alts ps s) -> exists p, In p ps /\ In o (p s).
Proof.
  induction ps as [|p ps IH]; simpl; [tauto|].
  unfold Strptime.alt. intros H. apply in_app_or in H as [H|H].
  - exists p. auto.
  - destruct (IH H) as (p' & H1 & H2). exists p'. auto.
Qed.

(** Under [IGNORECASE] a word matches its own letters in either case. *)
Lemma in_word w s x r :
  In (x, r) (Strptime.word w s) ->
  map Strptime.lower x = map Strptime.lower w.
Proof.
  revert s x r. induction w as [|c w IH]; intros s x r H; simpl in H.
  - destruct H as [H|[]]. now injection H as <- _.
  - apply in_seq_parser in H as (a & r1 & Ha & H).
    apply in_seq_parser in H as (xs & r2 & Hxs & H).
    apply in_ret in H as [-> _].
    unfold Strptime.chr in Ha. apply in_sat in Ha as [Ha _].
    apply Ascii.eqb_eq in Ha. simpl. rewrite Ha. f_equal. eapply IH; eauto.
Qed.

Lemma group_b_range s x r :
  In (x, r) (Strptime.group_b s) ->
  in_range 1 12
    (Strptime.index_from 1 (map Strptime.lower x) Strptime.a_month) = true.
Proof.
  unfold Strptime.group_b. intros H.
  apply in_alts in H as (p & Hp & H).
  apply in_map_iff in Hp as (w & <- & Hw).
  apply in_word in H. rewrite H.
  assert (All : forallb
            (fun w => in_range 1 12
               (Strptime.index_from 1 (map Strptime.lower w) Strptime.a_month))
            Strptime.a_month = true) by reflexivity.
  rewrite forallb_forall in All. now apply All.
Qed.

Lemma digit_value c :
  Strptime.between "0" "9" c = true ->
  Py.isspace c = false /\ nat_of_ascii c - 48 <= 9.
Proof.
  revert c.
  assert (H : forall c,
             implb (Strptime.between "0" "9" c)
               (negb (Py.isspace c) && (nat_of_ascii c - 48 <=? 9)) = true)
    by (apply check_single; vm_compute; reflexivity).
  intros c Hc. specialize (H c). rewrite Hc in H. simpl in H.
  apply andb_true_iff in H as [H1 H2].
  apply negb_true_iff in H1. apply Nat.leb_le in H2. auto.
Qed.

Lemma group_Y_range s x r :
  In (x, r) (Strptime.group_Y s) -> Strptime.int x <= MAXYEAR.
Proof.
  unfold Strptime.group_Y, Strptime.digit. intros H.
  apply in_seq_parser in H as (a & r1 & Ha & H).
  apply in_seq_parser in H as (b & r2 & Hb & H).
  apply in_seq_parser in H as (c & r3 & Hc & H).
  apply in_seq_parser in H as (d & r4 & Hd & H).
  apply in_ret in H as [-> _].
  apply in_sat in Ha as [Ha _]. apply in_sat in Hb as [Hb _].
  apply in_sat in Hc as [Hc _]. apply in_sat in Hd as [Hd _].
  apply digit_value in Ha as [Sa Va]. apply digit_value in Hb as [Sb Vb].
  apply digit_value in Hc as [Sc Vc]. apply digit_value in Hd as [Sd Vd].
  unfold Strptime.int, Py.strip.
  cbn [Py.lstrip]. rewrite Sa. cbn [rev app Py.lstrip]. rewrite Sd.
  cbn [rev app fold_left]. unfold MAXYEAR. lia.
Qed.

(** A timestamp that [strptime] returns is a date of the calendar with a
    time of the day. *)
Lemma strptime_valid s dt :
  Strptime.strptime s = Ok dt -> valid_datetime dt.
Proof.
  unfold Strptime.strptime.
  destruct (Strptime.format_regex s) as [|[g rest] more] eqn:F; [discriminate|].
  destruct rest; [|discriminate].
  destruct ((1 <=? Strptime.int (Strptime.g_Y g))
            && (Strptime.int (Strptime.g_d g)
                <=? Strptime.days_in_month (Strptime.int (Strptime.g_Y g))
                      (Strptime.index_from 1
                         (map Strptime.lower (Strptime.g_b g))
                         Strptime.a_month))) eqn:Check; [|discriminate].
  intros H. injection H as <-.
  apply andb_true_iff in Check as [Hy Hd].
  apply Nat.leb_le in Hy. apply Nat.leb_le in Hd.
  assert (Hin : In (g, []) (Strptime.format_regex s))
    by (rewrite F; now left).
  unfold Strptime.format_regex in Hin.
  apply in_seq_parser in Hin as (d & r1 & Gd & Hin).
  apply in_seq_parser in Hin as (u1 & r2 & _ & Hin).
  apply in_seq_parser in Hin as (b & r3 & Gb & Hin).
  apply in_seq_parser in Hin as (u2 & r4 & _ & Hin).
  apply in_seq_parser in Hin as (Y & r5 & GY & Hin).
  apply in_seq_parser in Hin as (u3 & r6 & _ & Hin).
  apply in_seq_parser in Hin as (H & r7 & GH & Hin).
  apply in_seq_parser in Hin as (u4 & r8 & _ & Hin).
  apply in_seq_parser in Hin as (M & r9 & GM & Hin).
  apply in_ret in Hin as [-> _]. cbn [Strptime.g_d Strptime.g_b Strptime.g_Y
    Strptime.g_H Strptime.g_M] in *.
  pose proof (group_d_range s) as Rd. rewrite forallb_forall in Rd.
  specialize (Rd _ Gd).
  pose proof (group_H_range r6) as RH. rewrite forallb_forall in RH.
  specialize (RH _ GH).
  pose proof (group_M_range r8) as RM. rewrite forallb_forall in RM.
  specialize (RM _ GM).
  pose proof (group_b_range _ _ _ Gb) as Rb.
  pose proof (group_Y_range _ _ _ GY) as RY.
  unfold in_range in *. cbn [fst] in *.
  apply andb_true_iff in Rd as [Rd1 Rd2]. apply Nat.leb_le in Rd1.
  apply andb_true_iff in RH as [_ RH]. apply Nat.leb_le in RH.
  apply andb_true_iff in RM as [_ RM]. apply Nat.leb_le in RM.
  apply andb_true_iff in Rb as [Rb1 Rb2].
  apply Nat.leb_le in Rb1. apply Nat.leb_le in Rb2.
  unfold valid_datetime. cbn [year month day hour minute].
  repeat split; assumption.
Qed.

(** The two timestamps of a record returned are dates of the calendar
    (the day exists in its month, leap years counted) with an hour below
    24 and a minute below 60. *)
Theorem extract_dates_valid parser r :
  extract_lesson_details parser = Ok r ->
  valid_datetime (from_date r) /\ valid_datetime (to_date r).
Proof.
  intros H.
  apply extract_lesson_details_Ok in H
    as (s & loc & stf & t0 & fd & td & _ & _ & _ & Hd & ->).
  cbn [from_date to_date]. unfold parse_dates in Hd.
  apply bind_Ok in Hd as ([date_str time_str] & _ & Hd).
  apply bind_Ok in Hd as ([from_time to_time] & _ & Hd).
  apply bind_Ok in Hd as (fd' & Hf & Hd).
  apply bind_Ok in Hd as (td' & Ht & Hd).
  injection Hd as <- <-.
  split; eapply strptime_valid; eauto.
Qed.

Lemma extract_dates_valid_witness :
  valid_datetime nine /\ valid_datetime ten.
Proof.
  apply (@extract_dates_valid scenario_3_fragment scenario_3_record).
  vm_compute. reflexivity.
Defined.

(** ** More on the calendar builder *)

Section Calendar_shape.

Variable astimezone : datetime -> aware_datetime.

(** Every event of the calendar is a [VEVENT] with the five properties
    [SUMMARY], [LOCATION], [DESCRIPTION], [DTSTART] and [DTEND], in this
    order, each with one value, and with no component inside; the
    calendar itself has [PRODID] and [VERSION] and nothing else. *)
Theorem create_calendar_shape ls :
  map fst (Ical.properties (create_calendar astimezone ls))
    = [py "PRODID"; py "VERSION"] /\
  Forall event_shape (Ical.subcomponents (create_calendar astimezone ls)).
Proof.
  split.
  - unfold create_calendar.
    assert (H : forall cal,
               Ical.properties (fold_left
                 (fun cal l => Ical.add_component cal
                                 (create_calendar_event astimezone l)) ls cal)
               = Ical.properties cal).
    { induction ls as [|l ls' IH]; intros cal; simpl; [reflexivity|].
      rewrite IH. now destruct cal. }
    rewrite H. reflexivity.
  - rewrite create_calendar_subcomponents. apply Forall_map.
    apply Forall_forall. intros l _. unfold event_shape.
    repeat split. repeat constructor; eexists; reflexivity.
Qed.

(** Two records give the same event exactly when they have the same
    subject, the same staff, the same converted timestamps and the same
    location, where a record without location counts as one whose
    location is the text [None]. *)
Theorem create_calendar_event_same l1 l2 :
  create_calendar_event astimezone l1 = create_calendar_event astimezone l2
  <->
  subject l1 = subject l2 /\
  staff l1 = staff l2 /\
  astimezone (from_date l1) = astimezone (from_date l2) /\
  astimezone (to_date l1) = astimezone (to_date l2) /\
  same_location (class_location l1) (class_location l2).
Proof.
  destruct l1 as [s1 loc1 st1 f1 t1], l2 as [s2 loc2 st2 f2 t2].
  unfold create_calendar_event. cbn [subject staff from_date to_date class_location].
  split.
  - intros H. vm_compute in H.
    destruct loc1 as [x|], loc2 as [y|]; vm_compute;
      injection H; intros; subst; repeat split; congruence.
  - intros (-> & -> & Hf & Ht & Hl).
    assert (E : Ical.text_value loc1 = Ical.text_value loc2).
    { destruct loc1 as [x|], loc2 as [y|]; simpl in *; congruence. }
    unfold Ical.add_text, Ical.add_datetime. now rewrite Hf, Ht, E.
Qed.

End Calendar_shape.

(** ** More on the publisher *)

(** [upload_ical_to_s3] returns to its caller exactly when the client and
    the temporary file could be created, the file could be closed, and
    either nothing failed in between or what failed was an [Exception]
    and its report could be printed. *)
Theorem upload_returns_iff env cal :
  snd (S3.upload_ical_to_s3 env cal) = S3.Returns tt <->
  S3.boto3_client env = S3.Returns tt /\
  S3.TemporaryFile env = S3.Returns tt /\
  S3.close env = S3.Returns tt /\
  (snd (S3.serialize_and_upload env cal) = S3.Returns tt \/
   exists e,
     snd (S3.serialize_and_upload env cal) = S3.Raises e /\
     S3.is_Exception e = true /\
     S3.print env (py "Failed to upload file to S3: " ++ S3.message e)
       = S3.Returns tt).
Proof.
  unfold S3.upload_ical_to_s3, S3.try_block.
  destruct (S3.boto3_client env) as [[]|e0];
    [|split; [discriminate | intros (H & _); discriminate]].
  destruct (S3.TemporaryFile env) as [[]|e1].
  - destruct (S3.serialize_and_upload env cal) as [effects [[]|e]];
      cbn [S3.except_clause S3.finally_clause fst snd].
    + destruct (S3.close env) as [[]|e2]; cbn [snd].
      * split; [intros _; repeat split; now left | reflexivity].
      * split; [discriminate | intros (_ & _ & H & _); discriminate].
    + destruct (S3.is_Exception e) eqn:Ex.
      * destruct (S3.print env (py "Failed to upload file to S3: "
                                ++ S3.message e)) as [[]|e3] eqn:Pr;
          cbn [snd fst]; destruct (S3.close env) as [[]|e2]; cbn [snd];
          split; try discriminate; try reflexivity.
        -- intros _. repeat split. right. exists e. auto.
        -- intros (_ & _ & H & _). discriminate.
        -- intros (_ & _ & _ & [H|(e' & H & _ & P)]); [discriminate|].
           injection H as <-. rewrite Pr in P. discriminate.
        -- intros (_ & _ & H & _). discriminate.
      * cbn [snd fst]. destruct (S3.close env) as [[]|e2]; cbn [snd];
          split; try discriminate.
        -- intros (_ & _ & _ & [H|(e' & H & X & _)]); [discriminate|].
           injection H as <-. congruence.
        -- intros (_ & _ & H & _). discriminate.
  - cbn [S3.except_clause S3.finally_clause fst snd].
    split; [discriminate | intros (_ & H & _); discriminate].
Qed.

Lemma uploaded_after_except env r bucket key body :
  In (S3.Uploaded bucket key body) (fst (S3.except_clause env r)) <->
  In (S3.Uploaded bucket key body) (fst r).
Proof.
  destruct r as [effects [[]|e]]; cbn [S3.except_clause fst]; [tauto|].
  destruct (S3.is_Exception e); [|tauto].
  split_print; cbn [fst]; [|tauto].
  rewrite in_app_iff. simpl. split; [|tauto].
  intros [H|[H|[]]]; [assumption | discriminate].
Qed.

Lemma uploaded_after_finally env bound r bucket key body :
  In (S3.Uploaded bucket key body) (fst (S3.finally_clause env bound r)) <->
  In (S3.Uploaded bucket key body) (fst r).
Proof.
  unfold S3.finally_clause. destruct bound; [|tauto].
  destruct (S3.close env) as [[]|]; cbn [fst]; [|tauto].
  rewrite in_app_iff. simpl. split; [|tauto].
  intros [H|[H|[]]]; [assumption | discriminate].
Qed.

Lemma uploaded_by_serialize env cal bucket key body :
  In (S3.Uploaded bucket key body) (fst (S3.serialize_and_upload env cal)) <->
  S3.to_ical env cal = S3.Returns body /\
  S3.write env body = S3.Returns tt /\
  S3.seek env = S3.Returns tt /\
  S3.upload_fileobj env body = S3.Returns tt /\
  bucket = S3.BUCKET_NAME /\ key = S3.FILENAME.
Proof.
  unfold S3.serialize_and_upload.
  destruct (S3.to_ical env cal) as [b|e];
    [|split; [intros [] | intros (H & _); discriminate]].
  destruct (S3.write env b) as [[]|e] eqn:Wr;
    [|split; [intros [] | intros (H & W & _); injection H as <-; congruence]].
  destruct (S3.seek env) as [[]|e];
    [|split; [intros [] | intros (_ & _ & H & _); discriminate]].
  destruct (S3.upload_fileobj env b) as [[]|e] eqn:Up;
    [|split; [intros []
             | intros (H & _ & _ & U & _); injection H as <-; congruence]].
  cbn [fst]. simpl. split.
  - intros [H|[]]. injection H as <- <- <-. auto 10.
  - intros (H & _ & _ & _ & -> & ->). injection H as <-. auto.
Qed.

(** An object is stored exactly when every call up to the upload
    returned; it is then the serialized calendar, under the fixed bucket
    and name. *)
Theorem upload_stores_iff env cal bucket key body :
  In (S3.Uploaded bucket key body) (fst (S3.upload_ical_to_s3 env cal)) <->
  S3.boto3_client env = S3.Returns tt /\
  S3.TemporaryFile env = S3.Returns tt /\
  S3.to_ical env cal = S3.Returns body /\
  S3.write env body = S3.Returns tt /\
  S3.seek env = S3.Returns tt /\
  S3.upload_fileobj env body = S3.Returns tt /\
  bucket = S3.BUCKET_NAME /\ key = S3.FILENAME.
Proof.
  unfold S3.upload_ical_to_s3, S3.try_block.
  destruct (S3.boto3_client env) as [[]|e0];
    [|split; [intros [] | intros (H & _); discriminate]].
  destruct (S3.TemporaryFile env) as [[]|e1].
  - rewrite uploaded_after_finally, uploaded_after_except,
      uploaded_by_serialize. tauto.
  - rewrite uploaded_after_finally, uploaded_after_except. cbn [fst].
    split; [intros [] | intros (_ & H & _); discriminate].
Qed.

(** What is not an [Exception], an interrupt of the run say, is not
    caught: nothing is printed, the file is closed, and the interrupt
    reaches the caller. *)
Theorem upload_interrupt_propagates env cal e :
  S3.boto3_client env = S3.Returns tt ->
  S3.TemporaryFile env = S3.Returns tt ->
  S3.serialize_and_upload env cal = ([], S3.Raises e) ->
  S3.is_Exception e = false ->
  S3.close env = S3.Returns tt ->
  S3.upload_ical_to_s3 env cal = ([S3.Closed], S3.Raises e).
Proof.
  intros Hc Ht Hs He Hcl.
  unfold S3.upload_ical_to_s3, S3.try_block. rewrite Hc, Ht, Hs.
  unfold S3.except_clause. rewrite He.
  unfold S3.finally_clause. now rewrite Hcl.
Qed.

Lemma upload_interrupt_propagates_witness :
  S3.upload_ical_to_s3 upload_interrupted Ical.Calendar =
  ([S3.Closed], S3.Raises (S3.Interrupt (py "KeyboardInterrupt"))).
Proof.
  apply (@upload_interrupt_propagates upload_interrupted Ical.Calendar
           (S3.Interrupt (py "KeyboardInterrupt"))); reflexivity.
Defined.

Lemma upload_without_temporary_file_witness :
  snd (S3.upload_ical_to_s3 no_temporary_file Ical.Calendar)
  = S3.Raises S3.UnboundLocalError.
Proof.
  apply (@upload_without_temporary_file no_temporary_file Ical.Calendar
           (py "No usable temporary directory found")); reflexivity.
Defined.

(** ** The dates of the command line *)

Example ymd1 : StrptimeDate.strptime (py "2024-09-05") = Ok {| year := 2024; month := 9; day := 5; hour := 0; minute := 0 |}.
Proof. vm_compute. reflexivity. Qed.
Example ymd2 : StrptimeDate.strptime (py "2024-9-5") = Ok {| year := 2024; month := 9; day := 5; hour := 0; minute := 0 |}.
Proof. vm_compute. reflexivity. Qed.
Example ymd3 : StrptimeDate.strptime (py "2024-13-01") = Raise ValueError.
Proof. vm_compute. reflexivity. Qed.
Example ymd4 : StrptimeDate.strptime (py "2024-02-30") = Raise ValueError.
Proof. vm_compute. reflexivity. Qed.
Example ymd5 : StrptimeDate.strptime (py "0005-01-01") = Ok {| year := 5; month := 1; day := 1; hour := 0; minute := 0 |}.
Proof. vm_compute. reflexivity. Qed.
Example ymd6 : StrptimeDate.strptime (py "2024-09- 5") = Ok {| year := 2024; month := 9; day := 5; hour := 0; minute := 0 |}.
Proof. vm_compute. reflexivity. Qed.
Example ymd7 : StrptimeDate.strptime (py "2024-09-05x") = Raise ValueError.
Proof. vm_compute. reflexivity. Qed.
Example ymd8 : StrptimeDate.strptime (py "2024-10-1") = Ok {| year := 2024; month := 10; day := 1; hour := 0; minute := 0 |}.
Proof. vm_compute. reflexivity. Qed.
Example ymd9 : StrptimeDate.strptime (py "2024-00-10") = Raise ValueError.
Proof. vm_compute. reflexivity. Qed.


Lemma strip_same s :
  head_not_space s = true -> head_not_space (rev s) = true -> Py.strip s = s.
Proof.
  intros H1 H2. unfold Py.strip.
  now rewrite (lstrip_same _ H1), (lstrip_same _ H2), rev_involutive.
Qed.

Lemma digit_char_digit n :
  n < 10 ->
  Strptime.between "0" "9" (digit_char n) = true /\
  Py.isspace (digit_char n) = false /\
  nat_of_ascii (digit_char n) - 48 = n.
Proof.
  intros H. do 10 (destruct n as [|n]; [vm_compute; auto|]). lia.
Qed.

Lemma int_four_digits y : y <= MAXYEAR -> Strptime.int (four_digits y) = y.
Proof.
  intros H. unfold MAXYEAR in H. unfold four_digits, Strptime.int.
  assert (Ha : y / 1000 < 10) by (apply Nat.Div0.div_lt_upper_bound; lia).
  assert (Hb : y / 100 mod 10 < 10) by (apply Nat.mod_upper_bound; lia).
  assert (Hc : y / 10 mod 10 < 10) by (apply Nat.mod_upper_bound; lia).
  assert (Hd : y mod 10 < 10) by (apply Nat.mod_upper_bound; lia).
  destruct (digit_char_digit Ha) as (_ & Sa & Va).
  destruct (digit_char_digit Hb) as (_ & _ & Vb).
  destruct (digit_char_digit Hc) as (_ & _ & Vc).
  destruct (digit_char_digit Hd) as (_ & Sd & Vd).
  rewrite strip_same.
  - cbn [fold_left]. rewrite Va, Vb, Vc, Vd.
    pose proof (Nat.div_mod_eq y 10).
    pose proof (Nat.div_mod_eq (y / 10) 10).
    pose proof (Nat.div_mod_eq (y / 100) 10).
    replace (y / 10 / 10) with (y / 100) in *
      by (now rewrite Nat.Div0.div_div).
    replace (y / 100 / 10) with (y / 1000) in *
      by (now rewrite Nat.Div0.div_div).
    lia.
  - cbn [head_not_space]. now rewrite Sa.
  - cbn [rev app head_not_space]. now rewrite Sd.
Qed.

Lemma group_Y_four_digits y rest :
  y <= MAXYEAR ->
  Strptime.group_Y (four_digits y ++ rest) = [(four_digits y, rest)].
Proof.
  intros H. unfold MAXYEAR in H. unfold four_digits.
  assert (Ha : y / 1000 < 10) by (apply Nat.Div0.div_lt_upper_bound; lia).
  assert (Hb : y / 100 mod 10 < 10) by (apply Nat.mod_upper_bound; lia).
  assert (Hc : y / 10 mod 10 < 10) by (apply Nat.mod_upper_bound; lia).
  assert (Hd : y mod 10 < 10) by (apply Nat.mod_upper_bound; lia).
  destruct (digit_char_digit Ha) as (Da & _).
  destruct (digit_char_digit Hb) as (Db & _).
  destruct (digit_char_digit Hc) as (Dc & _).
  destruct (digit_char_digit Hd) as (Dd & _).
  unfold Strptime.group_Y, Strptime.digit, Strptime.seq, Strptime.sat,
    Strptime.ret.
  cbn [app flat_map]. rewrite Da. cbn [app flat_map].
  rewrite Db. cbn [app flat_map]. rewrite Dc. cbn [app flat_map].
  rewrite Dd. reflexivity.
Qed.

(** The month and the day that [strftime] writes are read back as
    written, for every month and every day of a month. *)
Lemma month_day_two_digits m d :
  1 <= m <= 12 -> 1 <= d <= 31 ->
  written_month_day m d = true.
Proof.
  intros Hm Hd.
  assert (All : forallb (fun m => forallb (written_month_day m) (seq 1 31))
                  (seq 1 12) = true) by (vm_compute; reflexivity).
  rewrite forallb_forall in All.
  specialize (All m ltac:(apply in_seq; lia)).
  rewrite forallb_forall in All. apply All, in_seq. lia.
Qed.

Lemma days_in_month_max y m : Strptime.days_in_month y m <= 31.
Proof.
  unfold Strptime.days_in_month.
  do 12 (destruct m as [|m]; [try destruct (Strptime.is_leap y); lia|]).
  lia.
Qed.

Lemma group_m_range s :
  forallb (fun o => in_range 1 12 (Strptime.int (fst o)))
    (StrptimeDate.group_m s) = true.
Proof.
  destruct s as [|a [|b rest]].
  - reflexivity.
  - revert a. apply check_single. vm_compute. reflexivity.
  - revert a b. apply check_pairs. vm_compute. reflexivity.
Qed.

(** A timestamp that [strptime] returns for ['%Y-%m-%d'] is a date of
    the calendar, at midnight. *)
Lemma strptime_date_valid s dt :
  StrptimeDate.strptime s = Ok dt ->
  valid_datetime dt /\ hour dt = 0 /\ minute dt = 0.
Proof.
  unfold StrptimeDate.strptime.
  destruct (StrptimeDate.format_regex s) as [|[[Y [m d]] rest] more] eqn:F;
    [discriminate|].
  destruct rest; [|discriminate].
  destruct ((1 <=? Strptime.int Y)
            && (Strptime.int d
                <=? Strptime.days_in_month (Strptime.int Y) (Strptime.int m)))
    eqn:Check; [|discriminate].
  intros H. injection H as <-.
  apply andb_true_iff in Check as [Hy Hd].
  apply Nat.leb_le in Hy. apply Nat.leb_le in Hd.
  assert (Hin : In ((Y, (m, d)), []) (StrptimeDate.format_regex s))
    by (rewrite F; now left).
  unfold StrptimeDate.format_regex in Hin.
  apply in_seq_parser in Hin as (Y' & r1 & GY & Hin).
  apply in_seq_parser in Hin as (md & r2 & Gmd & Hin).
  apply in_ret in Hin as [E _]. injection E as <- <-.
  unfold StrptimeDate.month_day in Gmd.
  apply in_seq_parser in Gmd as (u1 & r3 & _ & Gmd).
  apply in_seq_parser in Gmd as (m' & r4 & Gm & Gmd).
  apply in_seq_parser in Gmd as (u2 & r5 & _ & Gmd).
  apply in_seq_parser in Gmd as (d' & r6 & Gd & Gmd).
  apply in_ret in Gmd as [E _]. injection E as <- <-.
  pose proof (group_m_range r3) as Rm. rewrite forallb_forall in Rm.
  specialize (Rm _ Gm).
  pose proof (group_d_range r5) as Rd. rewrite forallb_forall in Rd.
  specialize (Rd _ Gd).
  pose proof (group_Y_range _ _ _ GY) as RY.
  unfold in_range in *. cbn [fst] in *.
  apply andb_true_iff in Rm as [Rm1 Rm2].
  apply Nat.leb_le in Rm1. apply Nat.leb_le in Rm2.
  apply andb_true_iff in Rd as [Rd1 _]. apply Nat.leb_le in Rd1.
  unfold valid_datetime. cbn [year month day hour minute].
  repeat split; (assumption || lia).
Qed.

(** The text of a date in four, two and two digits reads as that
    date. *)
Lemma strptime_written y m dd :
  1000 <= y -> y <= MAXYEAR -> 1 <= m <= 12 ->
  1 <= dd <= Strptime.days_in_month y m ->
  StrptimeDate.strptime
    (four_digits y ++ py "-" ++ two_digits m ++ py "-" ++ two_digits dd) =
  Ok {| year := y; month := m; day := dd; hour := 0; minute := 0 |}.
Proof.
  intros Hy1 Hy2 Hm Hd.
  pose proof (days_in_month_max y m) as Hmax.
  pose proof (@month_day_two_digits m dd Hm ltac:(lia)) as W.
  unfold written_month_day in W.
  unfold StrptimeDate.strptime, StrptimeDate.format_regex.
  unfold Strptime.seq at 1. rewrite group_Y_four_digits by assumption.
  cbn [flat_map]. rewrite app_nil_r.
  unfold Strptime.seq at 1.
  destruct (StrptimeDate.month_day
              (py "-" ++ two_digits m ++ py "-" ++ two_digits dd))
    as [|[[ms ds] rest] more]; [discriminate|].
  cbn [flat_map Strptime.ret app].
  destruct rest; [|discriminate].
  apply andb_true_iff in W as [Hmm Hdd].
  apply Nat.eqb_eq in Hdd. apply Nat.eqb_eq in Hmm.
  rewrite int_four_digits, Hmm, Hdd by assumption.
  assert (C : (1 <=? y) && (dd <=? Strptime.days_in_month y m) = true).
  { apply andb_true_iff. split; apply Nat.leb_le; lia. }
  now rewrite C.
Qed.

Section Dates.

Variable year_text : nat -> str.

(** From the year 1000 on, [%Y] is the year in four digits on every
    host. *)
Hypothesis year_text_four :
  forall y, 1000 <= y -> y <= MAXYEAR -> year_text y = four_digits y.

(** Reading back what [strftime] writes gives the date written, at
    midnight: every date of the calendar from the year 1000 on. *)
Theorem strptime_strftime d :
  1000 <= date_year d -> date_year d <= MAXYEAR ->
  1 <= date_month d <= 12 ->
  1 <= date_day d <= Strptime.days_in_month (date_year d) (date_month d) ->
  StrptimeDate.strptime (strftime year_text d) =
  Ok {| year := date_year d; month := date_month d; day := date_day d;
        hour := 0; minute := 0 |}.
Proof.
  destruct d as [y m dd]. cbn [date_year date_month date_day].
  intros Hy1 Hy2 Hm Hd.
  unfold strftime. cbn [date_year date_month date_day].
  rewrite year_text_four by assumption.
  now apply strptime_written.
Qed.

(** The date that the window request carries reads back as the date of
    the command line: reading an argument, writing the date with
    [strftime] and reading that again gives the same date. *)
Theorem strftime_reads_back arg dt :
  StrptimeDate.strptime arg = Ok dt ->
  1000 <= year dt ->
  StrptimeDate.strptime (strftime year_text (date_of dt)) = Ok dt.
Proof.
  intros H Hy.
  apply strptime_date_valid in H as (V & Hh & Hm).
  destruct V as (_ & Y2 & M1 & M2 & D1 & D2 & _).
  unfold strftime. cbn [date_of date_year date_month date_day].
  rewrite year_text_four by (assumption || (unfold MAXYEAR; lia)).
  rewrite strptime_written; try (assumption || (unfold MAXYEAR; lia)).
  destruct dt as [y m d h mi]. cbn in Hh, Hm. now subst.
Qed.

End Dates.

Lemma strptime_strftime_witness :
  StrptimeDate.strptime (py "2024-02-29") =
  Ok {| year := 2024; month := 2; day := 29; hour := 0; minute := 0 |}.
Proof.
  apply (@strptime_strftime four_digits (fun _ _ _ => eq_refl)
           {| date_year := 2024; date_month := 2; date_day := 29 |});
    vm_compute; lia.
Defined.

Lemma strftime_reads_back_witness :
  StrptimeDate.strptime (py "2024-09-05") =
  Ok {| year := 2024; month := 9; day := 5; hour := 0; minute := 0 |}.
Proof.
  apply (@strftime_reads_back four_digits (fun _ _ _ => eq_refl)
           (py "2024-9-5")
           {| year := 2024; month := 9; day := 5; hour := 0; minute := 0 |});
    [vm_compute; reflexivity | vm_compute; lia].
Defined.

(** ** The run of the program *)

Section Program_properties.

Variable world : Type.
Variable send : world -> Requests.request -> world * Requests.reply.
Variable html_parser : str -> Bs.soup.
Variable astimezone : datetime -> aware_datetime.
Variable env : S3.environment.
Variable year_text : nat -> str.

Lemma and_then_Done {A B} (m : M world A) (k : A -> M world B) st st' b :
  and_then m k st = (st', Done b) ->
  exists a mid, m st = (mid, Done a) /\ k a mid = (st', Done b).
Proof.
  unfold and_then. destruct (m st) as [mid [a|f]]; [eauto | discriminate].
Qed.

Lemma and_then_Failed {A B} (m : M world A) (k : A -> M world B) st st' f :
  and_then m k st = (st', Failed f) ->
  m st = (st', Failed f) \/
  exists a mid, m st = (mid, Done a) /\ k a mid = (st', Failed f).
Proof.
  unfold and_then. destruct (m st) as [mid [a|f']]; [eauto|].
  intros H. left. congruence.
Qed.

Lemma quiet_done {A} (a : A) : quiet (done (world := world) a).
Proof. intros st st' r H. now injection H as <- _. Qed.

Lemma quiet_fail {A} f : quiet (fail (world := world) (A := A) f).
Proof. intros st st' r H. now injection H as <- _. Qed.

Lemma quiet_lift {A} (x : result A) : quiet (lift (world := world) x).
Proof. destruct x; [apply quiet_done | apply quiet_fail]. Qed.

Lemma quiet_and_then {A B} (m : M world A) (k : A -> M world B) :
  quiet m -> (forall a, quiet (k a)) -> quiet (and_then m k).
Proof.
  intros Hm Hk st st' r. unfold and_then.
  destruct (m st) as [mid [a|f]] eqn:E; intros H.
  - rewrite (Hk _ _ _ _ H). eapply Hm; eauto.
  - injection H as <- _. eapply Hm; eauto.
Qed.

Lemma quiet_call rq : quiet (call send rq).
Proof.
  intros st st' r. unfold call.
  destruct (send (net st) rq) as [w [resp|why]]; intros H;
    now injection H as <- _.
Qed.

Lemma quiet_raise_for_status r : quiet (raise_for_status (world := world) r).
Proof.
  unfold raise_for_status.
  destruct (_ && _); [apply quiet_fail | apply quiet_done].
Qed.

Lemma quiet_get_calendar_entry link cookies :
  quiet (get_calendar_entry send link cookies).
Proof.
  unfold get_calendar_entry.
  apply quiet_and_then; [apply quiet_call|]. intros r.
  apply quiet_and_then; [apply quiet_raise_for_status|]. intros _.
  apply quiet_done.
Qed.

Lemma quiet_lessons_of links cookies acc :
  quiet (lessons_of send html_parser links cookies acc).
Proof.
  revert acc. induction links as [|link rest IH]; intros acc; simpl.
  - apply quiet_done.
  - apply quiet_and_then; [apply quiet_get_calendar_entry|]. intros t.
    apply quiet_and_then; [apply quiet_lift|]. intros l. apply IH.
Qed.

Lemma quiet_build args :
  quiet (build send html_parser astimezone year_text args).
Proof.
  unfold build, authenticate, get_calendar_entries.
  repeat first
    [ apply quiet_done | apply quiet_fail | apply quiet_lift
    | apply quiet_call | apply quiet_raise_for_status
    | apply quiet_lessons_of
    | apply quiet_and_then; [|intros ?] ].
  match goal with
  | |- quiet (match ?x with _ => _ end) => destruct x
  end; [apply quiet_done | apply quiet_fail].
Qed.

Lemma publish_Failed cal (st st' : run world) f :
  publish env cal st = (st', Failed f) -> exists e, f = Uncaught e.
Proof.
  unfold publish.
  destruct (S3.upload_ical_to_s3 env cal) as [effs [[]|e]]; intros H;
    [discriminate|].
  injection H as _ <-. eauto.
Qed.

(** No partial publication: when the run is ended by anything other than
    an exception that escapes [upload_ical_to_s3], the publisher was not
    called: nothing is stored, printed or closed. *)
Theorem main_failure_publishes_nothing args st st' f :
  _main send html_parser astimezone env year_text args st = (st', Failed f) ->
  (forall e, f <> Uncaught e) ->
  effects st' = effects st.
Proof.
  unfold _main. intros H Hf.
  apply and_then_Failed in H as [H|(cal & mid & _ & H)].
  - eapply quiet_build; eauto.
  - apply publish_Failed in H as [e ->]. now elim (Hf e).
Qed.

(** A date of the command line that [strptime] refuses ends the run
    before any request is made, the credentials included. *)
Theorem main_checks_dates_first args st e :
  StrptimeDate.strptime (start_date args) = Raise e \/
  (exists d, StrptimeDate.strptime (start_date args) = Ok d /\
             StrptimeDate.strptime (end_date args) = Raise e) ->
  _main send html_parser astimezone env year_text args st
  = (st, Failed (Builtin e)).
Proof.
  unfold _main, build, and_then.
  intros [H|(d & H1 & H2)].
  - now rewrite H.
  - now rewrite H1, H2.
Qed.

(** When the login is answered with a status from 400 to 599, the run
    ends with [HTTPError] after this one request. *)
Theorem main_login_refused args st start finish w r :
  StrptimeDate.strptime (start_date args) = Ok start ->
  StrptimeDate.strptime (end_date args) = Ok finish ->
  send (net st) (login_request (username args) (password args))
    = (w, Requests.Answer r) ->
  400 <= Requests.status_code r < 600 ->
  _main send html_parser astimezone env year_text args st
  = ({| net := w;
        calls := calls st ++ [login_request (username args) (password args)];
        effects := effects st |},
     Failed (HTTPError (Requests.status_code r))).
Proof.
  intros H1 H2 Hs [Hlo Hhi].
  unfold _main, build, authenticate, and_then. rewrite H1, H2.
  cbn [lift done]. unfold call. rewrite Hs.
  unfold raise_for_status.
  assert (E : (400 <=? Requests.status_code r)
              && (Requests.status_code r <? 600) = true).
  { apply andb_true_iff. split; [now apply Nat.leb_le | now apply Nat.ltb_lt]. }
  rewrite E. reflexivity.
Qed.


Lemma lift_Done {A} (x : result A) (st st' : run world) a :
  lift x st = (st', Done a) -> st' = st /\ x = Ok a.
Proof.
  destruct x; cbn [lift done fail]; intros H; [|discriminate].
  injection H as <- <-. auto.
Qed.

Lemma call_Done rq (st st' : run world) r :
  call send rq st = (st', Done r) ->
  send (net st) rq = (net st', Requests.Answer r) /\
  calls st' = calls st ++ [rq] /\ effects st' = effects st.
Proof.
  unfold call. destruct (send (net st) rq) as [w [resp|why]]; intros H;
    [|discriminate].
  injection H as <- <-. auto.
Qed.

Lemma raise_for_status_Done r (st st' : run world) u :
  raise_for_status r st = (st', Done u) -> st' = st.
Proof.
  unfold raise_for_status. destruct (_ && _); intros H; [discriminate|].
  now injection H as <- _.
Qed.

Lemma authenticate_Done user pass (st st' : run world) cookies :
  authenticate send user pass st = (st', Done cookies) ->
  (exists r,
     send (net st) (login_request user pass) = (net st', Requests.Answer r) /\
     cookies = Requests.response_cookies r) /\
  calls st' = calls st ++ [login_request user pass] /\
  effects st' = effects st.
Proof.
  unfold authenticate. intros H.
  apply and_then_Done in H as (resp & mid & Hc & H).
  apply and_then_Done in H as (u & mid' & Hr & H).
  apply raise_for_status_Done in Hr. subst mid'.
  injection H as <- <-. apply call_Done in Hc as (Hs & Hc & He).
  eauto.
Qed.

Lemma get_calendar_entries_Done cookies start finish (st st' : run world) v :
  get_calendar_entries send year_text cookies start finish st = (st', Done v) ->
  (exists r,
     send (net st) (window_request year_text cookies start finish)
       = (net st', Requests.Answer r) /\
     Requests.json_body r = Some v) /\
  calls st' = calls st ++ [window_request year_text cookies start finish] /\
  effects st' = effects st.
Proof.
  unfold get_calendar_entries. intros H.
  apply and_then_Done in H as (resp & mid & Hc & H).
  apply and_then_Done in H as (u & mid' & Hr & H).
  apply raise_for_status_Done in Hr. subst mid'.
  destruct (Requests.json_body resp) as [v'|] eqn:J; [|discriminate].
  injection H as <- <-. apply call_Done in Hc as (Hs & Hc & He).
  eauto.
Qed.

Lemma get_calendar_entry_Done link cookies (st st' : run world) t :
  get_calendar_entry send link cookies st = (st', Done t) ->
  (exists r,
     send (net st) (detail_request cookies link)
       = (net st', Requests.Answer r) /\
     Requests.text r = t) /\
  calls st' = calls st ++ [detail_request cookies link] /\
  effects st' = effects st.
Proof.
  unfold get_calendar_entry. intros H.
  apply and_then_Done in H as (resp & mid & Hc & H).
  apply and_then_Done in H as (u & mid' & Hr & H).
  apply raise_for_status_Done in Hr. subst mid'.
  injection H as <- <-. apply call_Done in Hc as (Hs & Hc & He).
  eauto.
Qed.

(** The loop makes one request for each link, in the order of the links,
    and adds the lesson of each page fetched, in the same order. *)
Lemma lessons_of_Done links cookies acc (st st' : run world) ls :
  lessons_of send html_parser links cookies acc st = (st', Done ls) ->
  exists tooltips new,
    ls = acc ++ new /\
    pages_fetched send cookies (net st) links = Some tooltips /\
    Forall2 (fun tooltip l =>
               extract_lesson_details (html_parser tooltip) = Ok l)
      tooltips new /\
    length new = length links /\
    calls st' = calls st ++ map (detail_request cookies) links /\
    effects st' = effects st.
Proof.
  revert acc st. induction links as [|link rest IH]; intros acc st H.
  - injection H as <- <-. exists [], [].
    rewrite !app_nil_r. repeat split. constructor.
  - cbn [lessons_of] in H.
    apply and_then_Done in H as (t & mid & Hg & H).
    apply and_then_Done in H as (l & mid' & Hl & H).
    apply lift_Done in Hl as [-> Hl].
    apply get_calendar_entry_Done in Hg as ((r & Hs & Ht) & Hc & He).
    apply IH in H as (ts & new & -> & Hp & Hf & Hn & Hc' & He').
    exists (t :: ts), (l :: new). repeat split.
    + now rewrite <- app_assoc.
    + cbn [pages_fetched]. now rewrite Hs, Hp, Ht.
    + now constructor.
    + simpl. now rewrite Hn.
    + rewrite Hc', Hc, <- app_assoc. reflexivity.
    + now rewrite He', He.
Qed.

(** A run that returns has made the login request, then the window
    request with the cookies of the login and the two dates rewritten by
    [strftime], then one request for each link of the window, in their
    order and with the same cookies; every page fetched was parsed into a
    lesson, and the publisher was called once, on the calendar of these
    lessons in that order. *)
Theorem main_returns args st st' :
  _main send html_parser astimezone env year_text args st = (st', Done tt) ->
  exists start finish cookies entries links tooltips lessons,
    StrptimeDate.strptime (start_date args) = Ok start /\
    StrptimeDate.strptime (end_date args) = Ok finish /\
    (exists w r w' r',
       send (net st) (login_request (username args) (password args))
         = (w, Requests.Answer r) /\
       cookies = Requests.response_cookies r /\
       send w (window_request year_text cookies (date_of start)
                 (date_of finish))
         = (w', Requests.Answer r') /\
       Requests.json_body r' = Some entries /\
       pages_fetched send cookies w' links = Some tooltips) /\
    get_calendar_html entries = Ok links /\
    Forall2 (fun tooltip l =>
               extract_lesson_details (html_parser tooltip) = Ok l)
      tooltips lessons /\
    length lessons = length links /\
    calls st' =
      calls st
      ++ login_request (username args) (password args)
      :: window_request year_text cookies (date_of start) (date_of finish)
      :: map (detail_request cookies) links /\
    snd (S3.upload_ical_to_s3 env (create_calendar astimezone lessons))
      = S3.Returns tt /\
    effects st' =
      effects st
      ++ fst (S3.upload_ical_to_s3 env (create_calendar astimezone lessons)).
Proof.
  unfold _main. intros H.
  apply and_then_Done in H as (cal & s6 & Hb & Hp).
  unfold build in Hb.
  apply and_then_Done in Hb as (start & s1 & H1 & Hb).
  apply lift_Done in H1 as [-> H1].
  apply and_then_Done in Hb as (finish & s2 & H2 & Hb).
  apply lift_Done in H2 as [-> H2].
  apply and_then_Done in Hb as (cookies & s3 & H3 & Hb).
  apply authenticate_Done in H3 as ((r & Hr & Hck) & C3 & E3).
  apply and_then_Done in Hb as (entries & s4 & H4 & Hb).
  apply get_calendar_entries_Done in H4 as ((r' & Hr' & Hj) & C4 & E4).
  apply and_then_Done in Hb as (links & s5 & H5 & Hb).
  apply lift_Done in H5 as [-> H5].
  apply and_then_Done in Hb as (lessons & s7 & H6 & Hb).
  apply lessons_of_Done in H6
    as (tooltips & new & -> & Hp6 & Hf & Hn & C6 & E6).
  injection Hb as <- <-. cbn [app] in *.
  exists start, finish, cookies, entries, links, tooltips, new.
  unfold publish in Hp.
  destruct (S3.upload_ical_to_s3 env (create_calendar astimezone new))
    as [effs [[]|e]]; [|discriminate].
  injection Hp as <-. cbn [calls effects fst snd].
  repeat split; try assumption.
  - exists (net s3), r, (net s4), r'. now subst cookies.
  - rewrite C6, C4, C3, <- !app_assoc. reflexivity.
  - now rewrite E6, E4, E3.
Qed.

End Program_properties.

Lemma main_failure_publishes_nothing_witness :
  effects {| net := tt;
             calls := [login_request (py "parent") (py "secret")];
             effects := [] |}
  = effects (fresh tt).
Proof.
  apply (@main_failure_publishes_nothing unit refusing_portal one_page_parser
           as_utc upload_accepted four_digits one_week (fresh tt) _
           (HTTPError 401)); [vm_compute; reflexivity | discriminate].
Defined.

Lemma main_checks_dates_first_witness :
  _main refusing_portal one_page_parser as_utc upload_accepted four_digits
    no_date (fresh tt)
  = (fresh tt, Failed (Builtin ValueError)).
Proof.
  apply (@main_checks_dates_first unit refusing_portal one_page_parser
           as_utc upload_accepted four_digits no_date (fresh tt) ValueError).
  left. vm_compute. reflexivity.
Defined.

Lemma main_login_refused_witness :
  _main refusing_portal one_page_parser as_utc upload_accepted four_digits
    one_week (fresh tt)
  = ({| net := tt;
        calls := [] ++ [login_request (py "parent") (py "secret")];
        effects := [] |},
     Failed (HTTPError 401)).
Proof.
  apply (@main_login_refused unit refusing_portal one_page_parser as_utc
           upload_accepted four_digits one_week (fresh tt)
           {| year := 2024; month := 9; day := 2; hour := 0; minute := 0 |}
           {| year := 2024; month := 9; day := 6; hour := 0; minute := 0 |}
           tt
           {| Requests.status_code := 401;
              Requests.response_cookies := [];
              Requests.text := py "Unauthorized";
              Requests.json_body := None |});
    [vm_compute; reflexivity | vm_compute; reflexivity | reflexivity
    | vm_compute; lia].
Defined.

Lemma main_returns_witness :
  exists start finish cookies entries links tooltips lessons,
    StrptimeDate.strptime (start_date one_week) = Ok start /\
    StrptimeDate.strptime (end_date one_week) = Ok finish /\
    (exists w r w' r',
       small_portal (net (fresh 0))
         (login_request (username one_week) (password one_week))
         = (w, Requests.Answer r) /\
       cookies = Requests.response_cookies r /\
       small_portal w
         (window_request four_digits cookies (date_of start)
            (date_of finish))
         = (w', Requests.Answer r') /\
       Requests.json_body r' = Some entries /\
       pages_fetched small_portal cookies w' links = Some tooltips) /\
    get_calendar_html entries = Ok links /\
    Forall2 (fun tooltip l =>
               extract_lesson_details (one_page_parser tooltip) = Ok l)
      tooltips lessons /\
    length lessons = length links /\
    calls (fst (_main small_portal one_page_parser as_utc upload_accepted
                  four_digits one_week (fresh 0))) =
      calls (fresh 0)
      ++ login_request (username one_week) (password one_week)
      :: window_request four_digits cookies (date_of start) (date_of finish)
      :: map (detail_request cookies) links /\
    snd (S3.upload_ical_to_s3 upload_accepted (create_calendar as_utc lessons))
      = S3.Returns tt /\
    effects (fst (_main small_portal one_page_parser as_utc upload_accepted
                    four_digits one_week (fresh 0))) =
      effects (fresh 0)
      ++ fst (S3.upload_ical_to_s3 upload_accepted
                (create_calendar as_utc lessons)).
Proof.
  apply (@main_returns nat small_portal one_page_parser as_utc
           upload_accepted four_digits one_week (fresh 0)).
  vm_compute. reflexivity.
Defined.

(** ** The link extractor on any response *)

Lemma for_each_Raise {A S} (l : list A) (body : S -> A -> result S) acc e
  (P : exn -> Prop) :
  (forall acc a e, body acc a = Raise e -> P e) ->
  for_each l body acc = Raise e -> P e.
Proof.
  intros Hb. revert acc. induction l as [|a l IH]; intros acc H; simpl in H.
  - discriminate.
  - apply bind_Raise in H as [H|(acc' & _ & H)]; eauto.
Qed.

Lemma getitem_Raise v key e :
  Json.getitem v key = Raise e -> e = KeyError \/ e = TypeError.
Proof.
  destruct v; simpl; try (intros H; right; congruence).
  destruct (Json.lookup key members); [discriminate|].
  intros H. left. congruence.
Qed.

Lemma pages_of_Raise entries e :
  pages_of entries = Raise e ->
  e = KeyError \/ e = IndexError \/ e = TypeError.
Proof.
  unfold pages_of. intros H.
  apply bind_Raise in H as [H|(v1 & _ & H)];
    [apply getitem_Raise in H; tauto|].
  apply bind_Raise in H as [H|(v2 & _ & H)].
  { destruct v1; simpl in H; try (right; right; congruence).
    - apply bind_Raise in H as [H|(c & _ & H)]; [|discriminate].
      unfold Py.item in H. destruct (nth_error s 0); [discriminate|].
      right. left. congruence.
    - unfold Py.item in H. destruct (nth_error elements 0); [discriminate|].
      right. left. congruence.
    - left. congruence. }
  apply bind_Raise in H as [H|(v3 & _ & H)];
    [apply getitem_Raise in H; tauto|].
  apply bind_Raise in H as [H|(v4 & _ & H)];
    [apply getitem_Raise in H; tauto|].
  apply bind_Raise in H as [H|(v5 & _ & H)];
    [apply getitem_Raise in H; tauto|].
  apply getitem_Raise in H. tauto.
Qed.

Lemma links_of_page_Raise acc h e :
  links_of_page acc h = Raise e ->
  e = KeyError \/ e = TypeError \/ e = AttributeError.
Proof.
  unfold links_of_page. intros H.
  apply bind_Raise in H as [H|(present & _ & H)].
  { destruct h; simpl in H; try discriminate; right; left; congruence. }
  destruct present; [|discriminate].
  apply bind_Raise in H as [H|(v & _ & H)];
    [apply getitem_Raise in H; tauto|].
  apply bind_Raise in H as [H|(pieces & _ & H)].
  { destruct v; simpl in H; try discriminate; right; right; congruence. }
  rewrite inner_loop in H. discriminate.
Qed.

(** When [get_calendar_html] fails it is on the shape of the response:
    with [KeyError] or [IndexError] for a missing part, or with
    [TypeError] or [AttributeError] for a part of another kind; never
    with [ValueError], whatever the texts hold. *)
Theorem get_calendar_html_failure_classes entries e :
  get_calendar_html entries = Raise e ->
  e = KeyError \/ e = IndexError \/ e = TypeError \/ e = AttributeError.
Proof.
  unfold get_calendar_html. intros H.
  apply bind_Raise in H as [H|(pages & _ & H)];
    [apply pages_of_Raise in H; tauto|].
  apply bind_Raise in H as [H|(hs & _ & H)].
  { destruct pages; simpl in H; try discriminate;
      right; right; left; congruence. }
  apply for_each_Raise
    with (P := fun e => e = KeyError \/ e = TypeError \/ e = AttributeError)
    in H; [tauto|].
  intros acc a e'. apply links_of_page_Raise.
Qed.

Lemma get_calendar_html_failure_classes_witness :
  KeyError = KeyError \/ KeyError = IndexError \/ KeyError = TypeError
  \/ KeyError = AttributeError.
Proof.
  apply (@get_calendar_html_failure_classes (JDict [])). reflexivity.
Defined.

Lemma links_of_page_shape acc h :
  page_shape h -> exists acc', links_of_page acc h = Ok acc'.
Proof.
  intros (members & -> & [Hn|(html & Hs)]); unfold links_of_page;
    cbn [Json.contains Json.getitem bind].
  - rewrite Hn. cbn [bind]. eauto.
  - rewrite Hs. cbn [bind Json.split]. rewrite inner_loop. eauto.
Qed.

(** On a response of the documented shape the extractor returns a list,
    whatever the texts of the [html] fields are; the list is empty when
    there is no page. *)
Theorem get_calendar_html_returns entries pages :
  pages_of entries = Ok (JList pages) ->
  Forall page_shape pages ->
  exists links,
    get_calendar_html entries = Ok links /\ (pages = [] -> links = []).
Proof.
  intros Hp Hs. unfold get_calendar_html. rewrite Hp.
  cbn [bind Json.iter]. clear Hp.
  assert (H : forall acc, exists links,
             for_each pages links_of_page acc = Ok links /\
             (pages = [] -> links = acc)).
  { induction Hs as [|h hs Hh _ IH]; intros acc; simpl.
    - eauto.
    - destruct (links_of_page_shape acc Hh) as [acc' ->]. cbn [bind].
      destruct (IH acc') as (links & -> & _).
      exists links. split; [reflexivity | discriminate]. }
  apply H.
Qed.

Lemma get_calendar_html_returns_witness :
  exists links,
    get_calendar_html three_pages = Ok links /\
    (three_fragments = [] -> links = []).
Proof.
  apply (@get_calendar_html_returns three_pages three_fragments);
    [reflexivity|].
  repeat constructor; eexists; (split; [reflexivity|]);
    first [ left; reflexivity | right; eexists; reflexivity ].
Defined.
